(** * glTF export of a pixel model: the export of [gltfexport.cpp] and its
      properties.

    The export walks a grid of "pixels" (cells with a shape, a color and a
    depth), numbers the shapes, colors and (shape, color) pairs it meets,
    and assembles a glTF document with one node per cell under one root
    node.

    The file follows the source function by function.  Qt's JSON classes
    are modelled by an inductive type of values and finite maps from
    strings; [QMap] by [gmap]; [QVector] by lists, with indexing outside
    the vector made explicit; C++ [int] by [Z] with 32-bit wrap-around
    where the source does arithmetic. *)

From Stdlib Require Import QArith.
From stdpp Require Import base numbers option list gmap strings sorting.

Set Warnings "-register-all".
Local Open Scope Z_scope.

(** ** C++ [int] *)

Definition INT_MIN : Z := -2147483648.
Definition INT_MAX : Z := 2147483647.

(** The value an [int] expression has after 32-bit two's complement
    wrap-around.  (Signed overflow is undefined in C++; the wrap-around is
    what the usual targets compute.  The theorems below that speak of
    arithmetic stay inside the range where nothing overflows.) *)
Definition int (z : Z) : Z := (z + 2 ^ 31) `mod` 2 ^ 32 - 2 ^ 31.

(** ** Qt's JSON values

    [QJsonValue] has the seven types of [QJsonValue::Type]; a number is a
    [double], kept here as a rational. *)

Inductive QJsonValue : Type :=
  | Null
  | Bool (b : bool)
  | Double (d : Q)
  | String (s : string)
  | Array (a : list QJsonValue)
  | Object (o : gmap string QJsonValue)
  | Undefined.

Abbreviation QJsonArray := (list QJsonValue).
Abbreviation QJsonObject := (gmap string QJsonValue).

(** [QJsonValue(int)]. *)
Definition QJsonValue_int (n : Z) : QJsonValue := Double (inject_Z n).

(** [QJsonValue::isNull]: true for the type [Null] only. *)
Definition isNull (v : QJsonValue) : bool :=
  match v with Null => true | _ => false end.

(** [QJsonValue::toString]: the string, or a null [QString] for any other
    type. *)
Definition toString (v : QJsonValue) : string :=
  match v with String s => s | _ => "" end.

(** [QJsonValue::toInt]: the number when it is a whole number that fits an
    [int], else the default 0. *)
Definition toInt (v : QJsonValue) : Z :=
  match v with
  | Double d =>
      let r := Qred d in
      if bool_decide (Qden r = 1%positive ∧ INT_MIN ≤ Qnum r ≤ INT_MAX)
      then Qnum r else 0
  | _ => 0
  end.

(** [QJsonValue::toArray] and [QJsonValue::toObject]: empty for any other
    type. *)
Definition toArray (v : QJsonValue) : QJsonArray :=
  match v with Array a => a | _ => [] end.

Definition toObject (v : QJsonValue) : QJsonObject :=
  match v with Object o => o | _ => ∅ end.

(** [QJsonObject::value]: the value of the key, [Undefined] when the
    object has no such key. *)
Definition QJsonObject_value (o : QJsonObject) (key : string) : QJsonValue :=
  default Undefined (o !! key).

(** [QJsonObject::take]: removes the key and returns its value,
    [Undefined] when the object has no such key. *)
Definition QJsonObject_take (key : string) (o : QJsonObject)
  : QJsonValue * QJsonObject :=
  (QJsonObject_value o key, delete key o).

(** [QJsonObject::insert]: replaces the value of the key; inserting
    [Undefined] removes the key. *)
Definition QJsonObject_insert (key : string) (value : QJsonValue)
    (o : QJsonObject) : QJsonObject :=
  match value with
  | Undefined => delete key o
  | _ => <[key := value]> o
  end.

(** [QJsonDocument]: what [QJsonDocument::fromJson] returns, a null
    document when the bytes do not parse. *)
Inductive QJsonDocument : Type :=
  | NullDocument
  | ArrayDocument (a : QJsonArray)
  | ObjectDocument (o : QJsonObject).

(** [QJsonDocument::object]: empty unless the document holds an object. *)
Definition QJsonDocument_object (doc : QJsonDocument) : QJsonObject :=
  match doc with ObjectDocument o => o | _ => ∅ end.

(** ** [QVector] *)

Section QVector.
Context {A : Type}.

(** [QVector::resize]: cut, or filled up with default-constructed
    elements. *)
Definition resize (n : nat) (d : A) (v : list A) : list A :=
  take n v ++ replicate (n - length v) d.

(** [v[i]] read: no element outside [0 .. size-1]. *)
Definition at_ (v : list A) (i : Z) : option A :=
  if bool_decide (0 ≤ i) then v !! Z.to_nat i else None.

(** [v[i] = x]: no slot outside [0 .. size-1]. *)
Definition assign (v : list A) (i : Z) (x : A) : option (list A) :=
  if bool_decide (0 ≤ i < Z.of_nat (length v))
  then Some (<[Z.to_nat i := x]> v) else None.
End QVector.

(** ** The dictionaries of [buildUniqueVectors]

    The three [QMap]s are used the same way: a key that is not yet in the
    map gets the map's size as its index; the map is turned into a vector
    by writing every key at its index. *)

Section Dictionary.
Context `{Countable K}.

(** The [contains] / [size] / [insert] / [operator[]] block
    (lines 76-82, 84-90 and 92-99). *)
Definition indexOf (unique : gmap K Z) (key : K) : Z * gmap K Z :=
  match unique !! key with
  | None =>
      let idx := Z.of_nat (size unique) in (idx, <[key := idx]> unique)
  | Some idx => (idx, unique)
  end.

(** The loop over the map (lines 109-112, 115-118 and 121-124);
    [entries] is the sequence of (key, value) pairs the iterator runs
    through. *)
Definition fill (entries : list (K * Z)) (v : list K) : option (list K) :=
  foldl (λ acc e, v ← acc; assign v e.2 e.1) (Some v) entries.

(** The [resize] and the loop (lines 108-112, 114-118 and 120-124).  A
    [QMap] iterator goes through the entries by ascending key and
    [map_to_list] in an order of its own; the vector is the same for every
    order of the entries ([fill_any_order] below). *)
Definition toVector (unique : gmap K Z) (d : K) (v : list K)
  : option (list K) :=
  fill (map_to_list unique) (resize (size unique) d v).

(** The map [m] numbers exactly the keys of [l], each by its place. *)
Definition represents (m : gmap K Z) (l : list K) : Prop :=
  NoDup l ∧ size m = length l ∧
  ∀ k v, m !! k = Some v ↔ 0 ≤ v ∧ l !! Z.to_nat v = Some k.
End Dictionary.

(** ** First-seen numbering, on lists

    The keys of a stream in the order in which they are first met, and the
    position of a key in such a list: what the dictionaries are meant to
    compute. *)

Section FirstSeen.
Context `{EqDecision K}.

Definition remember (l : list K) (k : K) : list K :=
  if decide (k ∈ l) then l else l ++ [k].

Definition firstSeen (ks : list K) : list K := foldl remember [] ks.

(** The place of the first [k] in [l]; the length of [l] when there is
    none. *)
Fixpoint position (k : K) (l : list K) : nat :=
  match l with
  | [] => 0
  | x :: l => if decide (x = k) then 0 else S (position k l)
  end.
End FirstSeen.

Module GLTFExport.

(** [GLTFExport::Node], as the designated initializer of line 101 shows
    it. *)
Record Node : Type := { mesh : Z; depth : Z; row : Z; col : Z }.

(** The local state of the loops of [buildUniqueVectors]. *)
Record Scan : Type := {
  uniqueShapes : gmap string Z;
  uniqueColors : gmap string Z;
  uniqueMeshes : gmap (Z * Z) Z;
  nodes : list Node
}.

(** Lines 66-74: the three attributes of an item, [None] at [continue]. *)
Definition readItem (x : QJsonValue) : option (string * string * Z) :=
  let item := toObject x in
  let '(itemColor, item) := QJsonObject_take "color" item in
  let '(itemShape, item) := QJsonObject_take "shape" item in
  let '(itemDepth, item) := QJsonObject_take "depth" item in
  if isNull itemColor || isNull itemShape || isNull itemDepth then None
  else Some (toString itemColor, toString itemShape, toInt itemDepth).

(** Lines 76-102: the rest of the body of the inner loop. *)
Definition addNode (i j : Z) (color shape : string) (depth : Z) (st : Scan)
  : Scan :=
  let '(shapeIdx, uniqueShapes) := indexOf (uniqueShapes st) shape in
  let '(colorIdx, uniqueColors) := indexOf (uniqueColors st) color in
  let mesh := (shapeIdx, colorIdx) in
  let '(meshIdx, uniqueMeshes) := indexOf (uniqueMeshes st) mesh in
  let node := {| mesh := meshIdx; depth := depth; row := i; col := j |} in
  {| uniqueShapes := uniqueShapes; uniqueColors := uniqueColors;
     uniqueMeshes := uniqueMeshes; nodes := nodes st ++ [node] |}.

Definition visit (i j : Z) (x : QJsonValue) (st : Scan) : Scan :=
  match readItem x with
  | None => st
  | Some (color, shape, depth) => addNode i j color shape depth st
  end.

(** The inner loop, from column [j] on. *)
Fixpoint scanRow (i j : Z) (row : QJsonArray) (st : Scan) : Scan :=
  match row with
  | [] => st
  | x :: row => scanRow i (j + 1) row (visit i j x st)
  end.

(** The outer loop, from row [i] on. *)
Fixpoint scanRows (i : Z) (pixelMap : QJsonArray) (st : Scan) : Scan :=
  match pixelMap with
  | [] => st
  | r :: pixelMap => scanRows (i + 1) pixelMap (scanRow i 0 (toArray r) st)
  end.

(** [GLTFExport::buildUniqueVectors]; the four vectors are passed by
    reference, so they come in and go out. *)
Definition buildUniqueVectors (pixelMap : QJsonArray)
    (shapes colors : list string) (meshes : list (Z * Z)) (nodes : list Node)
  : option (list string * list string * list (Z * Z) * list Node) :=
  let st :=
    scanRows 0 pixelMap
      {| uniqueShapes := ∅; uniqueColors := ∅; uniqueMeshes := ∅;
         nodes := nodes |} in
  shapes ← toVector (uniqueShapes st) "" shapes;
  colors ← toVector (uniqueColors st) "" colors;
  meshes ← toVector (uniqueMeshes st) (0, 0) meshes;
  Some (shapes, colors, meshes, GLTFExport.nodes st).

(** ** The grid as a stream of cells *)

(** The items of the grid with their row and column, row by row. *)
Definition cells (pixelMap : QJsonArray) : list (Z * Z * QJsonValue) :=
  mjoin (imap (λ i r, imap (λ j x, (Z.of_nat i, Z.of_nat j, x)) (toArray r))
           pixelMap).

(** A cell that gets a node: its place, color, shape and depth. *)
Record Cell : Type := {
  cellRow : Z; cellCol : Z;
  cellColor : string; cellShape : string; cellDepth : Z
}.

Definition retainedCell (c : Z * Z * QJsonValue) : option Cell :=
  '(color, shape, depth) ← readItem c.2;
  Some {| cellRow := c.1.1; cellCol := c.1.2;
          cellColor := color; cellShape := shape; cellDepth := depth |}.

Definition retained (pixelMap : QJsonArray) : list Cell :=
  omap retainedCell (cells pixelMap).

(** The value [QJsonObject::take] returns for an attribute of an item. *)
Definition attribute (x : QJsonValue) (key : string) : QJsonValue :=
  QJsonObject_value (toObject x) key.

(** None of the three attributes of the item is the JSON value [null]. *)
Definition noneNull (x : QJsonValue) : bool :=
  negb (isNull (attribute x "color")) && negb (isNull (attribute x "shape"))
  && negb (isNull (attribute x "depth")).

(** The item has the attribute: the key is there, with a value other than
    [null]. *)
Definition present (x : QJsonValue) (key : string) : bool :=
  match toObject x !! key with
  | Some v => negb (isNull v)
  | None => false
  end.

Definition allPresent (x : QJsonValue) : bool :=
  present x "shape" && present x "color" && present x "depth".

(** The numbering the spec describes, on the stream of retained cells:
    shapes and colors in first-seen order, each (shape index, color index)
    pair in first-seen order, and one node per cell with the index of its
    pair. *)
Definition pairOf (shapes colors : list string) (c : Cell) : Z * Z :=
  (Z.of_nat (position (cellShape c) shapes),
   Z.of_nat (position (cellColor c) colors)).

Definition nodeOf (shapes colors : list string) (meshes : list (Z * Z))
    (c : Cell) : Node :=
  {| mesh := Z.of_nat (position (pairOf shapes colors c) meshes);
     depth := cellDepth c; row := cellRow c; col := cellCol c |}.

Definition uniqueVectors (cs : list Cell)
  : list string * list string * list (Z * Z) * list Node :=
  let shapes := firstSeen (cellShape <$> cs) in
  let colors := firstSeen (cellColor <$> cs) in
  let meshes := firstSeen (pairOf shapes colors <$> cs) in
  (shapes, colors, meshes, nodeOf shapes colors meshes <$> cs).

(** The body of the inner loop on a retained cell, and on any cell. *)
Definition addCell (st : Scan) (c : Cell) : Scan :=
  addNode (cellRow c) (cellCol c) (cellColor c) (cellShape c) (cellDepth c) st.

Definition visitCell (st : Scan) (c : Z * Z * QJsonValue) : Scan :=
  visit c.1.1 c.1.2 c.2 st.

(** ** The document *)

(** [QColor]: the four channels [redF], [greenF], [blueF], [alphaF]. *)
Record QColor : Type := { redF : Q; greenF : Q; blueF : Q; alphaF : Q }.

(** [GLTFExport::materialsFromColors]; [QColor(QString)] is Qt's. *)
Definition materialsFromColors (namedColor : string → QColor)
    (colors : list string) (metallicFactor roughnessFactor : Q)
  : QJsonArray :=
  (λ name,
     let color := namedColor name in
     Object {[ "pbrMetallicRoughness" :=
       Object (<["baseColorFactor" :=
                   Array [Double (redF color); Double (greenF color);
                          Double (blueF color); Double (alphaF color)]]>
               (<["metallicFactor" := Double metallicFactor]>
                {[ "roughnessFactor" := Double roughnessFactor ]})) ]})
  <$> colors.

(** [GLTFExport::insertInfo]. *)
Definition insertInfo (exportModel : QJsonObject) : QJsonObject :=
  QJsonObject_insert "asset"
    (Object (<["generator" := String "Pixel Model Maker"]>
             {[ "version" := String "2.0" ]}))
    exportModel.

(** [GLTFExport::insertScene]. *)
Definition insertScene (exportModel : QJsonObject) (numNodes : Z)
  : QJsonObject :=
  let exportModel := QJsonObject_insert "scene" (QJsonValue_int 0) exportModel in
  QJsonObject_insert "scenes"
    (Array [Object {[ "nodes" := Array [QJsonValue_int numNodes] ]}])
    exportModel.

(** The object of lines 166-169. *)
Definition nodeDef (n : Node) : QJsonValue :=
  Object (<["mesh" := QJsonValue_int (mesh n)]>
          (<["translation" :=
               Array [QJsonValue_int (int (int (row n * 2) + 1));
                      QJsonValue_int (int (int (col n * 2) + 1));
                      QJsonValue_int 0]]>
           {[ "scale" :=
                Array [QJsonValue_int 1; QJsonValue_int 1;
                       QJsonValue_int (int (int (2 * depth n) - 1))] ]})).

(** The literal [0.7071068286895752] of line 184, as the decimal it is
    written as. *)
Definition rotationComponent : Q :=
  Qmake 7071068286895752 10000000000000000.

(** The object of lines 181-184. *)
Definition rootDef (scenesNodes : QJsonArray) (height : Z) : QJsonValue :=
  Object (<["children" := Array scenesNodes]>
          (<["translation" :=
               Array [QJsonValue_int 0; QJsonValue_int (int (2 * height));
                      QJsonValue_int 0]]>
           {[ "rotation" :=
                Array [QJsonValue_int 0; QJsonValue_int 0;
                       Double (Qopp rotationComponent);
                       Double rotationComponent] ]})).

(** [GLTFExport::insertNodes]. *)
Definition insertNodes (exportModel : QJsonObject) (nodes : list Node)
    (height : Z) : QJsonObject :=
  let nodesDef := nodeDef <$> nodes in
  let scenesNodes :=
    (λ i : nat, QJsonValue_int (Z.of_nat i)) <$> seq 0 (length nodes) in
  let nodesDef := nodesDef ++ [rootDef scenesNodes height] in
  QJsonObject_insert "nodes" (Array nodesDef) exportModel.

(** The object of lines 201-207. *)
Definition meshDef (m : Z * Z) : QJsonValue :=
  Object {[ "primitives" :=
    Array [Object
      (<["attributes" :=
           Object (<["POSITION" := QJsonValue_int (int (m.1 * 3))]>
                   {[ "NORMAL" := QJsonValue_int (int (int (m.1 * 3) + 1)) ]})]>
       (<["indices" := QJsonValue_int (int (int (m.1 * 3) + 2))]>
        {[ "material" := QJsonValue_int m.2 ]}))] ]}.

(** [GLTFExport::insertMeshes]. *)
Definition insertMeshes (exportModel : QJsonObject) (meshes : list (Z * Z))
  : QJsonObject :=
  QJsonObject_insert "meshes" (Array (meshDef <$> meshes)) exportModel.

(** What [QFile] finds at a path: nothing, a file that does not open, or
    a file with its bytes. *)
Inductive QFile : Type :=
  | NoFile
  | Unopenable
  | Bytes (content : string).

(** What the export uses from outside [gltfexport.cpp]: Qt's conversion of
    a color name, the resource files, Qt's JSON parser, and whether a file
    opens for writing; and the default arguments of
    [materialsFromColors], declared in [gltfexport.h]. *)
Record Platform : Type := {
  namedColor : string → QColor;
  resource : string → QFile;
  fromJson : string → QJsonDocument;
  opensForWriting : string → bool;
  metallicFactor : Q;
  roughnessFactor : Q
}.

Section Writing.
Variable P : Platform.

(** [GLTFExport::insertMaterials]. *)
Definition insertMaterials (exportModel : QJsonObject)
    (colors : list string) : QJsonObject :=
  let materials :=
    materialsFromColors (namedColor P) colors
      (metallicFactor P) (roughnessFactor P) in
  QJsonObject_insert "materials" (Array materials) exportModel.

(** The resource path of line 225. *)
Definition shapeFileName (shape : string) : string :=
  ":/ui/exports/" +:+ shape +:+ ".gltf".

(** [GLTFExport::insertShapeData]; [None] when [shapes[0]] is outside
    the vector. *)
Definition insertShapeData (exportModel : QJsonObject)
    (shapes : list string) : option (bool * QJsonObject) :=
  shape ← at_ shapes 0;
  match resource P (shapeFileName shape) with
  | NoFile => Some (false, exportModel)
  | Unopenable => Some (false, exportModel)
  | Bytes content =>
      let shapeDef := QJsonDocument_object (fromJson P content) in
      let '(buffers, shapeDef) := QJsonObject_take "buffers" shapeDef in
      let exportModel := QJsonObject_insert "buffers" buffers exportModel in
      let '(bufferViews, shapeDef) :=
        QJsonObject_take "bufferViews" shapeDef in
      let exportModel :=
        QJsonObject_insert "bufferViews" bufferViews exportModel in
      let '(accessors, shapeDef) := QJsonObject_take "accessors" shapeDef in
      let exportModel :=
        QJsonObject_insert "accessors" accessors exportModel in
      Some (true, exportModel)
  end.

(** [GLTFExport::writeModel]: whether the file opened, and what was
    written to it.  The bytes of [QJsonDocument::toJson] are stood for
    by the document. *)
Definition writeModel (exportModel : QJsonObject) (fileName : string)
  : bool * option (string * QJsonObject) :=
  if opensForWriting P fileName then (true, Some (fileName, exportModel))
  else (false, None).

(** The two signals of the class. *)
Inductive Signal : Type :=
  | error (fileName message : string)
  | exported (fileName : string).

(** What a call of [write] leaves behind: the signal it emitted and the
    file it wrote, if any. *)
Record Outcome : Type := {
  emitted : Signal;
  written : option (string * QJsonObject)
}.

(** Lines 25-49 of [GLTFExport::write]. *)
Definition assemble (localFileName : string) (height : Z)
    (data : QJsonObject) : option Outcome :=
  let '(pixels, data) := QJsonObject_take "pixels" data in
  let pixelMap := toArray pixels in
  '(shapes, colors, meshes, nodes) ←
    buildUniqueVectors pixelMap [] [] [] [];
  let exportModel : QJsonObject := ∅ in
  let exportModel := insertInfo exportModel in
  let exportModel := insertScene exportModel (Z.of_nat (length nodes)) in
  let exportModel := insertNodes exportModel nodes height in
  let exportModel := insertMeshes exportModel meshes in
  let exportModel := insertMaterials exportModel colors in
  '(ok, exportModel) ← insertShapeData exportModel shapes;
  if negb ok then
    Some {| emitted := error localFileName "Can't find or open shape files";
            written := None |}
  else
    let '(ok, file) := writeModel exportModel localFileName in
    if negb ok then
      Some {| emitted := error localFileName "Can't write to file!";
              written := None |}
    else Some {| emitted := exported localFileName; written := file |}.

(** [GLTFExport::write]; [fileName] is taken after [QUrl::toLocalFile].
    [None] stands for an access outside a vector. *)
Definition write (localFileName : string) (data : QJsonObject)
  : option Outcome :=
  let '(version, data) := QJsonObject_take "version" data in
  let version := toString version in
  if bool_decide (version ≠ "1.0") then
    Some {| emitted :=
              error localFileName
                ("Invalid version number [1.0 != " +:+ version +:+ "]");
            written := None |}
  else
    let '(width, data) := QJsonObject_take "width" data in
    let width := toInt width in
    let '(height, data) := QJsonObject_take "height" data in
    let height := toInt height in
    if bool_decide (width ≠ height) then
      Some {| emitted := error localFileName "invalid size";
              written := None |}
    else assemble localFileName height data.

(** The document of lines 33-39, before the shape data go in. *)
Definition document (nodes : list Node) (height : Z)
    (meshes : list (Z * Z)) (colors : list string) : QJsonObject :=
  insertMaterials
    (insertMeshes
       (insertNodes
          (insertScene (insertInfo ∅) (Z.of_nat (length nodes)))
          nodes height)
       meshes)
    colors.

(** Lines 233-236: the three arrays of the shape file go into the
    document. *)
Definition mergeShape (shapeDef exportModel : QJsonObject) : QJsonObject :=
  QJsonObject_insert "accessors" (QJsonObject_value shapeDef "accessors")
    (QJsonObject_insert "bufferViews"
       (QJsonObject_value shapeDef "bufferViews")
       (QJsonObject_insert "buffers" (QJsonObject_value shapeDef "buffers")
          exportModel)).

(** What [write] does with a grid once the version and the size are
    accepted, told from the numbering of the retained cells. *)
Definition exportGrid (localFileName : string) (height : Z)
    (pixelMap : QJsonArray) : option Outcome :=
  let '(shapes, colors, meshes, nodes) :=
    uniqueVectors (retained pixelMap) in
  match shapes with
  | [] => None
  | shape :: _ =>
      match resource P (shapeFileName shape) with
      | Bytes content =>
          if opensForWriting P localFileName then
            Some {| emitted := exported localFileName;
                    written :=
                      Some (localFileName,
                            mergeShape
                              (QJsonDocument_object (fromJson P content))
                              (document nodes height meshes colors)) |}
          else
            Some {| emitted := error localFileName "Can't write to file!";
                    written := None |}
      | _ =>
          Some {| emitted :=
                    error localFileName "Can't find or open shape files";
                  written := None |}
      end
  end.
End Writing.

(** The object of lines 133-139, for one color. *)
Definition materialDef (color : QColor) (metallicFactor roughnessFactor : Q)
  : QJsonValue :=
  Object {[ "pbrMetallicRoughness" :=
    Object (<["baseColorFactor" :=
                Array [Double (redF color); Double (greenF color);
                       Double (blueF color); Double (alphaF color)]]>
            (<["metallicFactor" := Double metallicFactor]>
             {[ "roughnessFactor" := Double roughnessFactor ]})) ]}.

(** Row-major order of grid positions: an earlier row, or the same row and
    an earlier column. *)
Definition rowMajor (a b : Z * Z) : Prop :=
  a.1 < b.1 ∨ (a.1 = b.1 ∧ a.2 < b.2).

(** The platform [P] with other resource files. *)
Definition withResource (P : Platform) (files : string → QFile) : Platform :=
  {| namedColor := namedColor P; resource := files;
     fromJson := fromJson P; opensForWriting := opensForWriting P;
     metallicFactor := metallicFactor P;
     roughnessFactor := roughnessFactor P |}.

(** The material of a mesh definition: that of its first primitive. *)
Definition materialOf (meshDef : QJsonValue) : QJsonValue :=
  attribute
    (default Undefined (head (toArray (attribute meshDef "primitives"))))
    "material".

End GLTFExport.

Import GLTFExport.

(** ** Inputs and platforms to run the export on *)

Module Examples.

(** An item with the three attributes, and one with all three [null]. *)
Definition pixel (color shape : string) (depth : Z) : QJsonValue :=
  Object (<["color" := String color]>
          (<["shape" := String shape]>
           {[ "depth" := QJsonValue_int depth ]})).

Definition blank : QJsonValue :=
  Object (<["color" := Null]> (<["shape" := Null]> {[ "depth" := Null ]})).

(** An input of version 1.0. *)
Definition input (width height : Z) (pixels : QJsonArray) : QJsonObject :=
  <["version" := String "1.0"]>
  (<["width" := QJsonValue_int width]>
   (<["height" := QJsonValue_int height]> {[ "pixels" := Array pixels ]})).

(** A platform whose only shape file is the one of the cube, found as
    [cube]; only the bytes ["cube"] parse.  Every color is opaque red and
    every file opens for writing. *)
Definition cubeDef : QJsonObject :=
  <["buffers" := Array [Object {[ "byteLength" := QJsonValue_int 840 ]}]]>
  (<["bufferViews" := Array []]> {[ "accessors" := Array [] ]}).

Definition platform (cube : QFile) : Platform :=
  {| namedColor := λ _, {| redF := 1; greenF := 0; blueF := 0; alphaF := 1 |};
     resource := λ name,
       if bool_decide (name = ":/ui/exports/cube.gltf") then cube else NoFile;
     fromJson := λ bytes,
       if bool_decide (bytes = "cube") then ObjectDocument cubeDef
       else NullDocument;
     opensForWriting := λ _, true;
     metallicFactor := 0;
     roughnessFactor := 1 |}.

(** One row with a single item that has no attribute at all. *)
Definition bareGrid : QJsonArray := [Array [Object ∅]].

(** One row with the colors A, B, A. *)
Definition abaGrid : QJsonArray :=
  [Array [pixel "A" "cube" 1; pixel "B" "cube" 1; pixel "A" "cube" 1]].

(** A 3 x 4 grid whose only pixel is at row 2, column 3, with depth 4. *)
Definition cornerGrid : QJsonArray :=
  [Array [blank; blank; blank; blank];
   Array [blank; blank; blank; blank];
   Array [blank; blank; blank; pixel "red" "cube" 4]].

(** One pixel whose depth is above 2^30. *)
Definition deepGrid : QJsonArray := [Array [pixel "red" "cube" 1073741825]].

(** An input that declares the size 5 and has one row of one pixel. *)
Definition tallInput : QJsonObject := input 5 5 [Array [pixel "red" "cube" 1]].

(** What the export of [tallInput] to out.gltf leaves behind on a platform
    where the cube file parses. *)
Definition tallDocument : QJsonObject :=
  mergeShape cubeDef
    (document (platform (Bytes "cube"))
       [{| mesh := 0; depth := 1; row := 0; col := 0 |}] 5 [(0, 0)] ["red"]).

Definition tallOutcome : Outcome :=
  {| emitted := exported "out.gltf";
     written := Some ("out.gltf", tallDocument) |}.

(** The platform with the cube file, where no file opens for writing. *)
Definition readOnly : Platform :=
  {| namedColor := namedColor (platform (Bytes "cube"));
     resource := resource (platform (Bytes "cube"));
     fromJson := fromJson (platform (Bytes "cube"));
     opensForWriting := λ _, false;
     metallicFactor := 0;
     roughnessFactor := 1 |}.

(** An input of version 1.0 and size 0 without a pixels field. *)
Definition noPixels : QJsonObject :=
  <["version" := String "1.0"]>
  (<["width" := QJsonValue_int 0]> {[ "height" := QJsonValue_int 0 ]}).

(** An input of version 1.0 with one pixel, whose width 2147483648 is a
    whole number above the largest [int], and whose height is 0. *)
Definition wideInput : QJsonObject :=
  input 2147483648 0 [Array [pixel "red" "cube" 1]].

(** An input whose grid is empty. *)
Definition emptyInput : QJsonObject := input 0 0 [].

End Examples.

(** * Properties *)

(** ** [int] and [QVector] *)

Lemma int_small (z : Z) : INT_MIN ≤ z ≤ INT_MAX → int z = z.
Proof.
  unfold INT_MIN, INT_MAX, int. intros Hz.
  rewrite Z.mod_small by lia. lia.
Qed.

Lemma at_of_nat {A} (l : list A) (n : nat) : at_ l (Z.of_nat n) = l !! n.
Proof.
  unfold at_. rewrite bool_decide_eq_true_2 by lia. by rewrite Nat2Z.id.
Qed.

(** ** Lists in first-seen order *)

Section FirstSeenFacts.
Context `{EqDecision K}.
Implicit Types (k : K) (l ks : list K).

Lemma firstSeen_snoc ks k :
  firstSeen (ks ++ [k]) = remember (firstSeen ks) k.
Proof. unfold firstSeen. by rewrite foldl_app. Qed.

Lemma elem_of_remember l k k' : k' ∈ remember l k ↔ k' ∈ l ∨ k' = k.
Proof.
  unfold remember. case_decide.
  - split; [by left | intros [?| ->]; done].
  - rewrite elem_of_app, list_elem_of_singleton. done.
Qed.

Lemma NoDup_remember l k : NoDup l → NoDup (remember l k).
Proof.
  intros Hl. unfold remember. case_decide; [done|].
  apply NoDup_app. split_and!; [done| |apply NoDup_singleton].
  intros x Hx ->%list_elem_of_singleton. done.
Qed.

Lemma elem_of_firstSeen ks k : k ∈ firstSeen ks ↔ k ∈ ks.
Proof.
  induction ks as [|x ks IH] using rev_ind.
  - done.
  - rewrite firstSeen_snoc, elem_of_remember, elem_of_app,
      list_elem_of_singleton, IH. done.
Qed.

Lemma NoDup_firstSeen ks : NoDup (firstSeen ks).
Proof.
  induction ks as [|x ks IH] using rev_ind.
  - apply NoDup_nil_2.
  - rewrite firstSeen_snoc. by apply NoDup_remember.
Qed.

Lemma lookup_position l k : k ∈ l → l !! position k l = Some k.
Proof.
  induction l as [|x l IH]; [by intros ?%elem_of_nil|].
  intros Hk. simpl. case_decide as Hx; [by subst|].
  apply elem_of_cons in Hk as [->|Hk]; [done|]. by apply IH.
Qed.

Lemma position_lt l k : k ∈ l → (position k l < length l)%nat.
Proof. intros Hk. eapply lookup_lt_Some, lookup_position, Hk. Qed.

Lemma position_lookup l k n : NoDup l → l !! n = Some k → position k l = n.
Proof.
  intros Hl Hn. eapply NoDup_lookup; [done| |done].
  apply lookup_position. by eapply list_elem_of_lookup_2.
Qed.

Lemma position_app_l l l' k : k ∈ l → position k (l ++ l') = position k l.
Proof.
  induction l as [|x l IH]; [by intros ?%elem_of_nil|].
  intros Hk. simpl. case_decide as Hx; [done|].
  apply elem_of_cons in Hk as [->|Hk]; [done|]. by rewrite IH.
Qed.

Lemma position_app_r l k : k ∉ l → position k (l ++ [k]) = length l.
Proof.
  induction l as [|x l IH]; intros Hk; simpl.
  - by rewrite decide_True.
  - apply not_elem_of_cons in Hk as [? ?].
    rewrite decide_False by done. by rewrite IH.
Qed.

Lemma position_remember_old l k k' :
  k' ∈ l → position k' (remember l k) = position k' l.
Proof.
  intros Hk. unfold remember. case_decide; [done|]. by apply position_app_l.
Qed.

Lemma foldl_remember_prefix l ks : l `prefix_of` foldl remember l ks.
Proof.
  revert l. induction ks as [|k ks IH]; intros l; simpl; [done|].
  etrans; [|apply IH]. unfold remember. case_decide; [done|].
  by apply prefix_app_r.
Qed.

Lemma firstSeen_cons k ks : ∃ l, firstSeen (k :: ks) = k :: l.
Proof.
  unfold firstSeen. simpl. unfold remember at 2.
  rewrite decide_False by apply not_elem_of_nil. simpl.
  destruct (foldl_remember_prefix [k] ks) as [l ->]. by exists l.
Qed.

Lemma length_firstSeen ks : (length (firstSeen ks) ≤ length ks)%nat.
Proof.
  induction ks as [|k ks IH] using rev_ind; [done|].
  rewrite firstSeen_snoc, length_app. unfold remember. simpl.
  case_decide; rewrite ?length_app; simpl; lia.
Qed.
End FirstSeenFacts.

(** ** The dictionaries *)

Section DictionaryFacts.
Context `{Countable K}.
Implicit Types (m : gmap K Z) (l : list K) (k : K).

Lemma represents_empty : represents (∅ : gmap K Z) [].
Proof.
  split_and!; [apply NoDup_nil_2|done|].
  intros k v. rewrite lookup_empty, lookup_nil.
  split; [done | by intros [_ ?]].
Qed.

Lemma represents_None m l k : represents m l → m !! k = None → k ∉ l.
Proof.
  intros (_ & _ & Hm) Hk [n Hn]%list_elem_of_lookup.
  assert (m !! k = Some (Z.of_nat n)) as Hn'.
  { apply Hm. rewrite Nat2Z.id. split; [lia|done]. }
  congruence.
Qed.

Lemma represents_Some m l k v :
  represents m l → m !! k = Some v → k ∈ l ∧ v = Z.of_nat (position k l).
Proof.
  intros (Hl & _ & Hm) [Hv Hk]%Hm. split.
  - by eapply list_elem_of_lookup_2.
  - rewrite (position_lookup l k (Z.to_nat v)) by done. lia.
Qed.

Lemma indexOf_represents m l k :
  represents m l →
  represents (indexOf m k).2 (remember l k) ∧
  (indexOf m k).1 = Z.of_nat (position k (remember l k)).
Proof.
  intros Hml. unfold indexOf. destruct (m !! k) as [v|] eqn:Hk; simpl.
  - destruct (represents_Some _ _ _ _ Hml Hk) as [Hin ->].
    unfold remember. by rewrite decide_True.
  - pose proof (represents_None _ _ _ Hml Hk) as Hin.
    destruct Hml as (Hl & Hsz & Hm).
    unfold remember. rewrite decide_False by done.
    rewrite position_app_r by done. split; [|by rewrite Hsz].
    split_and!.
    + apply NoDup_app. split_and!; [done| |apply NoDup_singleton].
      by intros x Hx ->%list_elem_of_singleton.
    + rewrite map_size_insert_None, length_app by done. simpl. lia.
    + intros k' v. destruct (decide (k = k')) as [<-|Hne].
      * rewrite lookup_insert_eq. split.
        -- intros [= <-]. split; [lia|].
           rewrite Hsz, Nat2Z.id. by apply list_lookup_middle.
        -- intros [Hv Hlk]. f_equal.
           destruct (decide (Z.to_nat v < length l)%nat) as [Hlt|Hge].
           ++ rewrite lookup_app_l in Hlk by done.
              by apply list_elem_of_lookup_2 in Hlk.
           ++ apply lookup_lt_Some in Hlk. rewrite length_app in Hlk.
              simpl in Hlk. lia.
      * rewrite lookup_insert_ne by done. rewrite Hm.
        split; intros [Hv Hlk]; (split; [done|]).
        -- by apply lookup_app_l_Some.
        -- apply lookup_app_Some in Hlk as [Hlk|[_ Hlk]]; [done|].
           apply list_lookup_singleton_Some in Hlk as [_ Heq]. done.
Qed.

(** An entry of the map stays as it is. *)
Lemma indexOf_extends m k : m ⊆ (indexOf m k).2.
Proof.
  unfold indexOf. destruct (m !! k) eqn:Hk; simpl; [done|].
  by apply insert_subseteq.
Qed.

(** Writing the keys of [entries] at their indices gives [l] when every
    entry is a place of [l] and every slot still to be filled has an
    entry. *)
Lemma fill_Some (entries : list (K * Z)) (v l : list K) :
  length v = length l →
  (∀ k i, (k, i) ∈ entries → 0 ≤ i ∧ l !! Z.to_nat i = Some k) →
  (∀ n, (n < length l)%nat →
        v !! n = l !! n ∨ ∃ k, (k, Z.of_nat n) ∈ entries) →
  fill entries v = Some l.
Proof.
  unfold fill. revert v.
  induction entries as [|[k i] entries IH]; intros v Hlen Hin Hslots; simpl.
  - f_equal. apply list_eq. intros n.
    destruct (decide (n < length l)%nat) as [Hn|Hn].
    + destruct (Hslots n Hn) as [?|[k ?%elem_of_nil]]; done.
    + rewrite !lookup_ge_None_2 by lia. done.
  - destruct (Hin k i) as [Hi Hk]; [by left|].
    pose proof (lookup_lt_Some _ _ _ Hk) as Hlt.
    unfold assign at 2. rewrite bool_decide_eq_true_2 by lia.
    apply IH.
    + by rewrite length_insert.
    + intros k' i' Hin'. apply Hin. by right.
    + intros n Hn. destruct (decide (n = Z.to_nat i)) as [->|Hne].
      * left. rewrite list_lookup_insert_eq by lia. done.
      * rewrite list_lookup_insert_ne by done.
        destruct (Hslots n Hn) as [?|[k' Hk']]; [by left|right].
        exists k'. apply elem_of_cons in Hk' as [[= -> Heq]|?]; [|done].
        lia.
Qed.

Lemma length_resize (n : nat) (d : K) (v : list K) :
  length (resize n d v) = n.
Proof.
  unfold resize. rewrite length_app, length_take, length_replicate. lia.
Qed.

(** Whatever the order in which the entries of the map are gone through,
    and whatever the vector held before, the vector made from the map is
    the list the map represents. *)
Lemma fill_any_order m l (d : K) (v : list K) (entries : list (K * Z)) :
  represents m l →
  (∀ k i, (k, i) ∈ entries ↔ m !! k = Some i) →
  fill entries (resize (size m) d v) = Some l.
Proof.
  intros (Hl & Hsz & Hm) Hentries. apply fill_Some.
  - by rewrite length_resize.
  - intros k i Hin. by apply Hm, Hentries.
  - intros n Hn. right. destruct (lookup_lt_is_Some_2 l n Hn) as [k Hk].
    exists k. apply Hentries, Hm. rewrite Nat2Z.id. split; [lia|done].
Qed.

Lemma toVector_represents m l (d : K) (v : list K) :
  represents m l → toVector m d v = Some l.
Proof.
  intros Hml. unfold toVector. eapply fill_any_order; [done|].
  intros k i. apply elem_of_map_to_list.
Qed.
End DictionaryFacts.

(** ** The loops of [buildUniqueVectors] as one pass over the cells *)

Lemma scanRow_cells (i j : Z) (row : QJsonArray) (st : Scan) :
  scanRow i j row st =
  foldl visitCell st (imap (λ n x, (i, j + Z.of_nat n, x)) row).
Proof.
  revert j st. induction row as [|x row IH]; intros j st; simpl; [done|].
  rewrite IH. unfold visitCell at 2. simpl. rewrite Z.add_0_r.
  f_equal. apply imap_ext. intros n y _. simpl. do 2 f_equal. lia.
Qed.

Lemma scanRows_cells (i : Z) (pixelMap : QJsonArray) (st : Scan) :
  scanRows i pixelMap st =
  foldl visitCell st
    (mjoin (imap (λ n r, imap (λ j x, (i + Z.of_nat n, Z.of_nat j, x))
                           (toArray r)) pixelMap)).
Proof.
  revert i st. induction pixelMap as [|r pixelMap IH]; intros i st; simpl;
    [done|].
  rewrite foldl_app, IH, scanRow_cells, Z.add_0_r. f_equal.
  f_equal. apply imap_ext. intros n y _. simpl.
  apply imap_ext. intros j x _. do 2 f_equal. lia.
Qed.

Lemma visitCell_retained (st : Scan) (cs : list (Z * Z * QJsonValue)) :
  foldl visitCell st cs = foldl addCell st (omap retainedCell cs).
Proof.
  revert st. induction cs as [|[[i j] x] cs IH]; intros st; simpl; [done|].
  rewrite IH. unfold visitCell at 1, visit, retainedCell at 2. simpl.
  destruct (readItem x) as [[[color shape] depth]|]; done.
Qed.

Lemma scanRows_retained (pixelMap : QJsonArray) (st : Scan) :
  scanRows 0 pixelMap st = foldl addCell st (retained pixelMap).
Proof.
  rewrite scanRows_cells, visitCell_retained. done.
Qed.

(** ** The pass computes the first-seen numbering *)

Lemma pairOf_remember (cs : list Cell) (shape color : string) (c : Cell) :
  c ∈ cs →
  pairOf (remember (firstSeen (cellShape <$> cs)) shape)
         (remember (firstSeen (cellColor <$> cs)) color) c =
  pairOf (firstSeen (cellShape <$> cs)) (firstSeen (cellColor <$> cs)) c.
Proof.
  intros Hc. unfold pairOf.
  rewrite !position_remember_old; [done| |];
    apply elem_of_firstSeen, list_elem_of_fmap; eauto.
Qed.

Lemma uniqueVectors_snoc (cs : list Cell) (c : Cell) :
  uniqueVectors (cs ++ [c]) =
  let '(shapes, colors, meshes, ns) := uniqueVectors cs in
  let shapes' := remember shapes (cellShape c) in
  let colors' := remember colors (cellColor c) in
  let meshes' := remember meshes (pairOf shapes' colors' c) in
  (shapes', colors', meshes', ns ++ [nodeOf shapes' colors' meshes' c]).
Proof.
  unfold uniqueVectors. simpl.
  rewrite !fmap_app. simpl. rewrite !firstSeen_snoc.
  set (shapes := firstSeen (cellShape <$> cs)).
  set (colors := firstSeen (cellColor <$> cs)).
  set (shapes' := remember shapes (cellShape c)).
  set (colors' := remember colors (cellColor c)).
  assert (pairOf shapes' colors' <$> cs = pairOf shapes colors <$> cs) as Hpairs.
  { apply list_fmap_ext. intros n c0 Hc0.
    apply pairOf_remember. by eapply list_elem_of_lookup_2. }
  rewrite Hpairs. do 2 f_equal.
  apply list_fmap_ext. intros n c0 Hc0.
  apply list_elem_of_lookup_2 in Hc0.
  unfold nodeOf. f_equal.
  assert (pairOf shapes' colors' c0 = pairOf shapes colors c0) as ->
    by by apply pairOf_remember.
  rewrite position_remember_old; [done|].
  apply elem_of_firstSeen, list_elem_of_fmap. eauto.
Qed.

Lemma addCell_represents (st : Scan) (c : Cell)
    (shapes colors : list string) (meshes : list (Z * Z)) :
  represents (uniqueShapes st) shapes →
  represents (uniqueColors st) colors →
  represents (uniqueMeshes st) meshes →
  let shapes' := remember shapes (cellShape c) in
  let colors' := remember colors (cellColor c) in
  let meshes' := remember meshes (pairOf shapes' colors' c) in
  represents (uniqueShapes (addCell st c)) shapes' ∧
  represents (uniqueColors (addCell st c)) colors' ∧
  represents (uniqueMeshes (addCell st c)) meshes' ∧
  nodes (addCell st c) = nodes st ++ [nodeOf shapes' colors' meshes' c].
Proof.
  intros Hs Hc Hm. simpl. unfold addCell, addNode.
  destruct (indexOf_represents _ _ (cellShape c) Hs) as [Hs' Hsi].
  destruct (indexOf_represents _ _ (cellColor c) Hc) as [Hc' Hci].
  destruct (indexOf (uniqueShapes st) (cellShape c)) as [shapeIdx uS].
  destruct (indexOf (uniqueColors st) (cellColor c)) as [colorIdx uC].
  simpl in *. subst shapeIdx colorIdx.
  fold (pairOf (remember shapes (cellShape c))
          (remember colors (cellColor c)) c).
  set (mesh := pairOf _ _ c).
  destruct (indexOf_represents _ _ mesh Hm) as [Hm' Hmi].
  destruct (indexOf (uniqueMeshes st) mesh) as [meshIdx uM].
  simpl in *. subst meshIdx. split_and!; [assumption..|reflexivity].
Qed.

Lemma foldl_addCell (cs : list Cell) (ns : list Node) :
  let st :=
    foldl addCell
      {| uniqueShapes := ∅; uniqueColors := ∅; uniqueMeshes := ∅;
         nodes := ns |} cs in
  represents (uniqueShapes st) (uniqueVectors cs).1.1.1 ∧
  represents (uniqueColors st) (uniqueVectors cs).1.1.2 ∧
  represents (uniqueMeshes st) (uniqueVectors cs).1.2 ∧
  nodes st = ns ++ (uniqueVectors cs).2.
Proof.
  induction cs as [|c cs IH] using rev_ind.
  - simpl. rewrite app_nil_r. split_and!; try apply represents_empty; done.
  - cbv zeta in *. rewrite foldl_app, uniqueVectors_snoc.
    destruct (uniqueVectors cs) as [[[shapes colors] meshes] ns'].
    simpl in *. destruct IH as (Hs & Hc & Hm & Hn).
    destruct (addCell_represents _ c _ _ _ Hs Hc Hm) as (? & ? & ? & Hn').
    split_and!; [done..|]. rewrite Hn', Hn, <-app_assoc. done.
Qed.

(** The entries of the three maps stay as they are through the pass. *)
Lemma addCell_extends (st : Scan) (c : Cell) :
  uniqueShapes st ⊆ uniqueShapes (addCell st c) ∧
  uniqueColors st ⊆ uniqueColors (addCell st c) ∧
  uniqueMeshes st ⊆ uniqueMeshes (addCell st c).
Proof.
  unfold addCell, addNode.
  pose proof (indexOf_extends (uniqueShapes st) (cellShape c)) as Hs.
  pose proof (indexOf_extends (uniqueColors st) (cellColor c)) as Hc.
  destruct (indexOf (uniqueShapes st) (cellShape c)) as [shapeIdx uS].
  destruct (indexOf (uniqueColors st) (cellColor c)) as [colorIdx uC].
  pose proof (indexOf_extends (uniqueMeshes st) (shapeIdx, colorIdx)) as Hm.
  destruct (indexOf (uniqueMeshes st) (shapeIdx, colorIdx)) as [meshIdx uM].
  done.
Qed.

Lemma foldl_addCell_extends (cs : list Cell) (st : Scan) :
  uniqueShapes st ⊆ uniqueShapes (foldl addCell st cs) ∧
  uniqueColors st ⊆ uniqueColors (foldl addCell st cs) ∧
  uniqueMeshes st ⊆ uniqueMeshes (foldl addCell st cs).
Proof.
  revert st. induction cs as [|c cs IH]; intros st; simpl; [done|].
  destruct (addCell_extends st c) as (Hs & Hc & Hm).
  destruct (IH (addCell st c)) as (Hs' & Hc' & Hm').
  split_and!; etrans; done.
Qed.

(** [buildUniqueVectors] always returns, and returns the first-seen
    numbering of the retained cells, with the nodes after those already in
    the vector. *)
Lemma buildUniqueVectors_spec (pixelMap : QJsonArray)
    (shapes0 colors0 : list string) (meshes0 : list (Z * Z))
    (nodes0 : list Node) :
  buildUniqueVectors pixelMap shapes0 colors0 meshes0 nodes0 =
  let '(shapes, colors, meshes, ns) := uniqueVectors (retained pixelMap) in
  Some (shapes, colors, meshes, nodes0 ++ ns).
Proof.
  unfold buildUniqueVectors. rewrite scanRows_retained.
  destruct (foldl_addCell (retained pixelMap) nodes0) as (Hs & Hc & Hm & Hn).
  destruct (uniqueVectors (retained pixelMap))
    as [[[shapes colors] meshes] ns].
  simpl in *.
  rewrite (toVector_represents _ _ "" shapes0 Hs). simpl.
  rewrite (toVector_represents _ _ "" colors0 Hc). simpl.
  rewrite (toVector_represents _ _ (0, 0) meshes0 Hm). simpl.
  by rewrite Hn.
Qed.

(** ** [QJsonObject] *)

Lemma QJsonObject_value_delete_ne (o : QJsonObject) (k k' : string) :
  k ≠ k' → QJsonObject_value (delete k o) k' = QJsonObject_value o k'.
Proof. intros Hne. unfold QJsonObject_value. by rewrite lookup_delete_ne. Qed.

Lemma QJsonObject_insert_ne (o : QJsonObject) (k k' : string)
    (v : QJsonValue) :
  k ≠ k' → QJsonObject_insert k v o !! k' = o !! k'.
Proof.
  intros Hne. unfold QJsonObject_insert.
  destruct v; by rewrite ?lookup_insert_ne, ?lookup_delete_ne.
Qed.

Lemma QJsonObject_insert_eq (o : QJsonObject) (k : string) (v : QJsonValue) :
  v ≠ Undefined → QJsonObject_insert k v o !! k = Some v.
Proof.
  intros Hv. unfold QJsonObject_insert.
  destruct v; by rewrite ?lookup_insert_eq.
Qed.

(** ** Reading an item *)

Lemma readItem_attributes (x : QJsonValue) :
  readItem x =
  if noneNull x
  then Some (toString (attribute x "color"), toString (attribute x "shape"),
             toInt (attribute x "depth"))
  else None.
Proof.
  unfold readItem, noneNull, attribute, QJsonObject_take.
  rewrite !QJsonObject_value_delete_ne by done.
  destruct (isNull (QJsonObject_value (toObject x) "color")),
    (isNull (QJsonObject_value (toObject x) "shape")),
    (isNull (QJsonObject_value (toObject x) "depth")); done.
Qed.

Lemma length_retained (pixelMap : QJsonArray) :
  length (retained pixelMap) =
  length (filter (λ c, noneNull c.2) (cells pixelMap)).
Proof.
  unfold retained. induction (cells pixelMap) as [|c cs IH]; [done|].
  change (omap retainedCell (c :: cs)) with
    (match retainedCell c with
     | Some y => y :: omap retainedCell cs
     | None => omap retainedCell cs
     end).
  unfold retainedCell at 1. rewrite readItem_attributes.
  destruct (noneNull c.2) eqn:Hc; simpl.
  - rewrite filter_cons_True by (by apply Is_true_true). simpl.
    by rewrite IH.
  - rewrite filter_cons_False by (by apply Is_true_false). done.
Qed.


(** ** [write], case by case *)

Section ExportFacts.
Variable P : Platform.

Lemma insertShapeData_cases (exportModel : QJsonObject)
    (shapes : list string) :
  insertShapeData P exportModel shapes =
  match shapes with
  | [] => None
  | shape :: _ =>
      match resource P (shapeFileName shape) with
      | Bytes content =>
          Some (true,
                mergeShape (QJsonDocument_object (fromJson P content))
                  exportModel)
      | _ => Some (false, exportModel)
      end
  end.
Proof.
  unfold insertShapeData. destruct shapes as [|shape shapes]; [done|].
  simpl. destruct (resource P (shapeFileName shape)); [done..|].
  unfold QJsonObject_take, mergeShape.
  by rewrite !QJsonObject_value_delete_ne.
Qed.

Lemma assemble_exportGrid (localFileName : string) (height : Z)
    (data : QJsonObject) :
  assemble P localFileName height data =
  exportGrid P localFileName height
    (toArray (QJsonObject_value data "pixels")).
Proof.
  unfold assemble, exportGrid, QJsonObject_take.
  rewrite buildUniqueVectors_spec.
  destruct (uniqueVectors _) as [[[shapes colors] meshes] ns]. simpl.
  rewrite insertShapeData_cases. destruct shapes as [|shape shapes]; [done|].
  simpl. destruct (resource P (shapeFileName shape)); [done..|].
  simpl. unfold writeModel.
  destruct (opensForWriting P localFileName); done.
Qed.

Lemma write_cases (localFileName : string) (data : QJsonObject) :
  write P localFileName data =
  let version := toString (QJsonObject_value data "version") in
  let width := toInt (QJsonObject_value data "width") in
  let height := toInt (QJsonObject_value data "height") in
  if bool_decide (version ≠ "1.0") then
    Some {| emitted :=
              error localFileName
                ("Invalid version number [1.0 != " +:+ version +:+ "]");
            written := None |}
  else if bool_decide (width ≠ height) then
    Some {| emitted := error localFileName "invalid size";
            written := None |}
  else
    exportGrid P localFileName height
      (toArray (QJsonObject_value data "pixels")).
Proof.
  unfold write, QJsonObject_take. cbv zeta.
  rewrite assemble_exportGrid.
  by rewrite !QJsonObject_value_delete_ne.
Qed.
End ExportFacts.

(** ** The cells of a grid *)

Lemma elem_of_cells (pixelMap : QJsonArray) (i j : nat) (r x : QJsonValue) :
  pixelMap !! i = Some r → toArray r !! j = Some x →
  (Z.of_nat i, Z.of_nat j, x) ∈ cells pixelMap.
Proof.
  intros Hr Hx. unfold cells. apply list_elem_of_join.
  exists (imap (λ j x, (Z.of_nat i, Z.of_nat j, x)) (toArray r)). split.
  - apply elem_of_lookup_imap. eauto.
  - apply elem_of_lookup_imap. eauto.
Qed.

Lemma retained_lookup (pixelMap : QJsonArray) (i j : nat) (r x : QJsonValue)
    (color shape : string) (d : Z) :
  pixelMap !! i = Some r → toArray r !! j = Some x →
  readItem x = Some (color, shape, d) →
  ∃ t, retained pixelMap !! t =
       Some {| cellRow := Z.of_nat i; cellCol := Z.of_nat j;
               cellColor := color; cellShape := shape; cellDepth := d |}.
Proof.
  intros Hr Hx Hread. apply list_elem_of_lookup_1, list_elem_of_omap.
  exists (Z.of_nat i, Z.of_nat j, x). split; [by eapply elem_of_cells|].
  unfold retainedCell. simpl. by rewrite Hread.
Qed.

(** ** The numbering stays inside the vectors *)

Lemma pairOf_elem_of (cs : list Cell) (c : Cell) :
  c ∈ cs →
  let '(shapes, colors, meshes, _) := uniqueVectors cs in
  pairOf shapes colors c ∈ meshes.
Proof.
  intros Hc. simpl. apply elem_of_firstSeen, list_elem_of_fmap. eauto.
Qed.

Lemma uniqueVectors_nodes_bound (cs : list Cell) (n : Node) :
  let '(_, _, meshes, ns) := uniqueVectors cs in
  n ∈ ns → 0 ≤ mesh n < Z.of_nat (length meshes).
Proof.
  simpl. intros (c & -> & Hc)%list_elem_of_fmap. simpl.
  pose proof (pairOf_elem_of cs c Hc) as Hin. simpl in Hin.
  apply position_lt in Hin. lia.
Qed.

Lemma uniqueVectors_meshes_bound (cs : list Cell) (m : Z * Z) :
  let '(shapes, colors, meshes, _) := uniqueVectors cs in
  m ∈ meshes →
  0 ≤ m.1 < Z.of_nat (length shapes) ∧ 0 ≤ m.2 < Z.of_nat (length colors).
Proof.
  simpl. intros (c & -> & Hc)%elem_of_firstSeen%list_elem_of_fmap. simpl.
  assert (cellShape c ∈ firstSeen (cellShape <$> cs)) as Hs
    by (apply elem_of_firstSeen, list_elem_of_fmap; eauto).
  assert (cellColor c ∈ firstSeen (cellColor <$> cs)) as Hcol
    by (apply elem_of_firstSeen, list_elem_of_fmap; eauto).
  apply position_lt in Hs, Hcol. lia.
Qed.

(** A shape index is below the number of retained cells. *)
Lemma shape_index_below_cell_count (cs : list Cell) (m : Z * Z) :
  let '(_, _, meshes, _) := uniqueVectors cs in
  m ∈ meshes → 0 ≤ m.1 < Z.of_nat (length cs).
Proof.
  pose proof (uniqueVectors_meshes_bound cs m) as Hm.
  pose proof (length_firstSeen (cellShape <$> cs)) as Hlen.
  rewrite length_fmap in Hlen. simpl in *. intros Hin.
  destruct (Hm Hin) as [? _]. lia.
Qed.

(** ** The keys of the document *)

Section DocumentFacts.
Variable P : Platform.
Implicit Types (ns : list Node) (meshes : list (Z * Z)).
Implicit Types (colors : list string) (height : Z).

Lemma document_scene ns height meshes colors :
  document P ns height meshes colors !! "scene" = Some (QJsonValue_int 0).
Proof.
  unfold document, insertMaterials, insertMeshes, insertNodes, insertScene.
  rewrite !QJsonObject_insert_ne by done.
  by rewrite QJsonObject_insert_eq.
Qed.

Lemma document_scenes ns height meshes colors :
  document P ns height meshes colors !! "scenes" =
  Some (Array [Object {[ "nodes" :=
                 Array [QJsonValue_int (Z.of_nat (length ns))] ]}]).
Proof.
  unfold document, insertMaterials, insertMeshes, insertNodes, insertScene.
  rewrite !QJsonObject_insert_ne by done.
  by rewrite QJsonObject_insert_eq.
Qed.

Lemma document_nodes ns height meshes colors :
  document P ns height meshes colors !! "nodes" =
  Some (Array ((nodeDef <$> ns) ++
               [rootDef ((λ i : nat, QJsonValue_int (Z.of_nat i)) <$>
                         seq 0 (length ns)) height])).
Proof.
  unfold document, insertMaterials, insertMeshes, insertNodes.
  rewrite !QJsonObject_insert_ne by done.
  by rewrite QJsonObject_insert_eq.
Qed.

Lemma document_meshes ns height meshes colors :
  document P ns height meshes colors !! "meshes" =
  Some (Array (meshDef <$> meshes)).
Proof.
  unfold document, insertMaterials, insertMeshes.
  rewrite !QJsonObject_insert_ne by done.
  by rewrite QJsonObject_insert_eq.
Qed.

Lemma document_materials ns height meshes colors :
  document P ns height meshes colors !! "materials" =
  Some (Array (materialsFromColors (namedColor P) colors
                 (metallicFactor P) (roughnessFactor P))).
Proof.
  unfold document, insertMaterials. by rewrite QJsonObject_insert_eq.
Qed.

Lemma mergeShape_other (shapeDef exportModel : QJsonObject) (key : string) :
  key ≠ "buffers" → key ≠ "bufferViews" → key ≠ "accessors" →
  mergeShape shapeDef exportModel !! key = exportModel !! key.
Proof.
  intros. unfold mergeShape. by rewrite !QJsonObject_insert_ne.
Qed.

(** What is known of a call of [write] that wrote a file. *)
Lemma write_written (localFileName : string) (data : QJsonObject)
    (o : Outcome) (name : string) (doc : QJsonObject) :
  write P localFileName data = Some o → written o = Some (name, doc) →
  let height := toInt (QJsonObject_value data "height") in
  let '(shapes, colors, meshes, ns) :=
    uniqueVectors
      (retained (toArray (QJsonObject_value data "pixels"))) in
  name = localFileName ∧ emitted o = exported localFileName ∧
  ∃ shapeDef,
    doc = mergeShape shapeDef (document P ns height meshes colors).
Proof.
  rewrite write_cases. cbv zeta.
  case_bool_decide; [by intros [= <-]|].
  case_bool_decide; [by intros [= <-]|].
  unfold exportGrid.
  destruct (uniqueVectors _) as [[[shapes colors] meshes] ns].
  destruct shapes as [|shape shapes]; [done|].
  destruct (resource P (shapeFileName shape)); [by intros [= <-]..|].
  destruct (opensForWriting P localFileName); [|by intros [= <-]].
  intros [= <-]. simpl. intros [= <- <-]. eauto.
Qed.

(** A call of [write] that emits [exported] wrote a file. *)
Lemma write_exported (localFileName : string) (data : QJsonObject)
    (o : Outcome) (name : string) :
  write P localFileName data = Some o → emitted o = exported name →
  ∃ doc, written o = Some (localFileName, doc).
Proof.
  rewrite write_cases. cbv zeta.
  case_bool_decide; [by intros [= <-]|].
  case_bool_decide; [by intros [= <-]|].
  unfold exportGrid.
  destruct (uniqueVectors _) as [[[shapes colors] meshes] ns].
  destruct shapes as [|shape shapes]; [done|].
  destruct (resource P (shapeFileName shape)); [by intros [= <-]..|].
  destruct (opensForWriting P localFileName); [|by intros [= <-]].
  intros [= <-]. simpl. eauto.
Qed.
End DocumentFacts.

(** ** The export of [tallInput] *)

Lemma write_tallInput :
  write (Examples.platform (Bytes "cube")) "out.gltf" Examples.tallInput =
  Some Examples.tallOutcome.
Proof. vm_compute. reflexivity. Defined.

(** * The claims *)

(** C1, as amended.  For every grid, [buildUniqueVectors] returns, and the
    node array that [insertNodes] puts in the document is the cell nodes
    followed by one root node, where the number of cell nodes is the number
    of items of the grid none of whose color, shape and depth is the JSON
    value null.  An item with a null attribute gets no node and is no
    error; an attribute that is absent is not null, so an item that lacks
    attributes is counted and gets a node. *)
Theorem node_count_is_count_of_items_without_null (pixelMap : QJsonArray)
    (exportModel : QJsonObject) (height : Z) :
  ∃ shapes colors meshes ns cellNodes root,
    buildUniqueVectors pixelMap [] [] [] [] =
      Some (shapes, colors, meshes, ns) ∧
    insertNodes exportModel ns height !! "nodes" =
      Some (Array (cellNodes ++ [root])) ∧
    length cellNodes =
      length (filter (λ c, noneNull c.2) (cells pixelMap)).
Proof.
  rewrite buildUniqueVectors_spec.
  destruct (uniqueVectors (retained pixelMap))
    as [[[shapes colors] meshes] ns] eqn:Huv.
  exists shapes, colors, meshes, ns, (nodeDef <$> ns).
  eexists. split_and!; [done| |].
  - unfold insertNodes. by rewrite QJsonObject_insert_eq.
  - rewrite length_fmap, <-length_retained.
    unfold uniqueVectors in Huv. injection Huv as _ _ _ <-.
    by rewrite length_fmap.
Qed.

(** C1 fails as stated: the one item of [bareGrid] has none of the three
    attributes, and the export gives it a node, with empty shape and color
    and depth 0. *)
Lemma item_without_attributes_gets_a_node :
  length (filter (λ c, allPresent c.2) (cells Examples.bareGrid)) = 0%nat ∧
  buildUniqueVectors Examples.bareGrid [] [] [] [] =
    Some ([""], [""], [(0, 0)],
          [{| mesh := 0; depth := 0; row := 0; col := 0 |}]).
Proof. split; vm_compute; reflexivity. Qed.

(** C2.  For every grid, the three maps of [buildUniqueVectors] number the
    shapes, the colors and the (shape index, color index) pairs of the
    retained cells densely from 0 in the order in which they are first
    seen: each map holds exactly the keys of its exported vector, each with
    its place in the vector as index; the vectors have no key twice; an
    entry that a map has after some of the cells is still there, with the
    same index, after all of them; and the indices given out while the
    cells were read (the mesh index of a node, the two indices of a mesh)
    are the places of the keys in the final vectors.  The colors A, B, A
    give the color vector [A; B]. *)
Theorem dictionaries_number_in_first_seen_order (pixelMap : QJsonArray) :
  let cs := retained pixelMap in
  let st :=
    scanRows 0 pixelMap
      {| uniqueShapes := ∅; uniqueColors := ∅; uniqueMeshes := ∅;
         nodes := [] |} in
  ∃ shapes colors meshes ns,
    buildUniqueVectors pixelMap [] [] [] [] =
      Some (shapes, colors, meshes, ns) ∧
    shapes = firstSeen (cellShape <$> cs) ∧
    colors = firstSeen (cellColor <$> cs) ∧
    meshes = firstSeen (pairOf shapes colors <$> cs) ∧
    represents (uniqueShapes st) shapes ∧
    represents (uniqueColors st) colors ∧
    represents (uniqueMeshes st) meshes ∧
    (∀ cs1 cs2, cs = cs1 ++ cs2 →
       let st1 :=
         foldl addCell
           {| uniqueShapes := ∅; uniqueColors := ∅; uniqueMeshes := ∅;
              nodes := [] |} cs1 in
       uniqueShapes st1 ⊆ uniqueShapes st ∧
       uniqueColors st1 ⊆ uniqueColors st ∧
       uniqueMeshes st1 ⊆ uniqueMeshes st) ∧
    (∀ t c, cs !! t = Some c →
       ∃ n shapeIdx colorIdx,
         ns !! t = Some n ∧
         at_ meshes (mesh n) = Some (shapeIdx, colorIdx) ∧
         at_ shapes shapeIdx = Some (cellShape c) ∧
         at_ colors colorIdx = Some (cellColor c)) ∧
    buildUniqueVectors Examples.abaGrid [] [] [] [] =
      Some (["cube"], ["A"; "B"], [(0, 0); (0, 1)],
            [{| mesh := 0; depth := 1; row := 0; col := 0 |};
             {| mesh := 1; depth := 1; row := 0; col := 1 |};
             {| mesh := 0; depth := 1; row := 0; col := 2 |}]).
Proof.
  cbv zeta. rewrite buildUniqueVectors_spec.
  pose proof (foldl_addCell (retained pixelMap) []) as Hrep.
  cbv zeta in Hrep. rewrite <-scanRows_retained in Hrep.
  destruct Hrep as (Hs & Hc & Hm & _).
  unfold uniqueVectors in *. set (cs := retained pixelMap) in *.
  simpl in Hs, Hc, Hm.
  set (shapes := firstSeen (cellShape <$> cs)) in *.
  set (colors := firstSeen (cellColor <$> cs)) in *.
  set (meshes := firstSeen (pairOf shapes colors <$> cs)) in *.
  exists shapes, colors, meshes, (nodeOf shapes colors meshes <$> cs).
  split_and!; [done..| | |vm_compute; reflexivity].
  { intros cs1 cs2 Hcs. cbv zeta. rewrite scanRows_retained. fold cs.
    rewrite Hcs, foldl_app. apply foldl_addCell_extends. }
  intros t c Hc'. pose proof (list_elem_of_lookup_2 _ _ _ Hc') as Hin.
  exists (nodeOf shapes colors meshes c),
    (Z.of_nat (position (cellShape c) shapes)),
    (Z.of_nat (position (cellColor c) colors)).
  split_and!.
  - by rewrite list_lookup_fmap, Hc'.
  - simpl. rewrite at_of_nat. apply lookup_position.
    apply elem_of_firstSeen, list_elem_of_fmap. eauto.
  - rewrite at_of_nat. apply lookup_position.
    apply elem_of_firstSeen, list_elem_of_fmap. eauto.
  - rewrite at_of_nat. apply lookup_position.
    apply elem_of_firstSeen, list_elem_of_fmap. eauto.
Qed.

(** C3, as amended.  For every item of the grid at row [i] and column [j]
    that [readItem] retains with depth [d], where [i] and [j] are below
    2^30 and [d] is strictly between -2^30 and 2^30 (so that no [int]
    overflows), the export has a node for this row, column and depth, and
    the node array of the document holds at the place of this node an
    object with translation (i*2+1, j*2+1, 0) and scale (1, 1, 2*d-1). *)
Theorem node_translation_and_scale (pixelMap : QJsonArray) (i j : nat)
    (r x : QJsonValue) (color shape : string) (d : Z)
    (exportModel : QJsonObject) (height : Z) :
  pixelMap !! i = Some r → toArray r !! j = Some x →
  readItem x = Some (color, shape, d) →
  Z.of_nat i < 2 ^ 30 → Z.of_nat j < 2 ^ 30 → - 2 ^ 30 < d < 2 ^ 30 →
  ∃ shapes colors meshes ns t n nodesDef,
    buildUniqueVectors pixelMap [] [] [] [] =
      Some (shapes, colors, meshes, ns) ∧
    ns !! t = Some n ∧
    row n = Z.of_nat i ∧ col n = Z.of_nat j ∧ depth n = d ∧
    insertNodes exportModel ns height !! "nodes" = Some (Array nodesDef) ∧
    nodesDef !! t =
      Some (Object
              (<["mesh" := QJsonValue_int (mesh n)]>
               (<["translation" :=
                    Array [QJsonValue_int (Z.of_nat i * 2 + 1);
                           QJsonValue_int (Z.of_nat j * 2 + 1);
                           QJsonValue_int 0]]>
                {[ "scale" :=
                     Array [QJsonValue_int 1; QJsonValue_int 1;
                            QJsonValue_int (2 * d - 1)] ]}))).
Proof.
  intros Hr Hx Hread Hi Hj Hd.
  destruct (retained_lookup _ _ _ _ _ _ _ _ Hr Hx Hread) as [t Ht].
  rewrite buildUniqueVectors_spec.
  destruct (uniqueVectors (retained pixelMap))
    as [[[shapes colors] meshes] ns] eqn:Huv.
  unfold uniqueVectors in Huv. injection Huv as Hshapes Hcolors Hmeshes Hns.
  set (c := {| cellRow := Z.of_nat i; cellCol := Z.of_nat j;
               cellColor := color; cellShape := shape; cellDepth := d |})
    in Ht.
  assert (ns !! t = Some (nodeOf shapes colors meshes c)) as Hn.
  { rewrite <-Hns, list_lookup_fmap, Ht. simpl. by subst. }
  eexists shapes, colors, meshes, ns, t, _, _.
  split_and!; [done|exact Hn|done|done|done| |].
  - unfold insertNodes. by rewrite QJsonObject_insert_eq.
  - rewrite lookup_app_l
      by (rewrite length_fmap; by eapply lookup_lt_Some).
    rewrite list_lookup_fmap, Hn. simpl. unfold nodeDef. simpl.
    assert (2 ^ 30 = 1073741824) as H30 by done.
    rewrite (int_small (Z.of_nat i * 2)), (int_small (Z.of_nat j * 2)),
      (int_small (2 * d)) by (unfold INT_MIN, INT_MAX; lia).
    rewrite (int_small (Z.of_nat i * 2 + 1)),
      (int_small (Z.of_nat j * 2 + 1)), (int_small (2 * d - 1))
      by (unfold INT_MIN, INT_MAX; lia).
    done.
Qed.

(** The pixel of row 2, column 3 and depth 4 of [cornerGrid] gets
    translation (5, 7, 0) and scale (1, 1, 7). *)
Lemma node_translation_and_scale_witness :
  ∃ shapes colors meshes ns t n nodesDef,
    buildUniqueVectors Examples.cornerGrid [] [] [] [] =
      Some (shapes, colors, meshes, ns) ∧
    ns !! t = Some n ∧
    row n = 2 ∧ col n = 3 ∧ depth n = 4 ∧
    insertNodes ∅ ns 3 !! "nodes" = Some (Array nodesDef) ∧
    nodesDef !! t =
      Some (Object
              (<["mesh" := QJsonValue_int (mesh n)]>
               (<["translation" :=
                    Array [QJsonValue_int 5; QJsonValue_int 7;
                           QJsonValue_int 0]]>
                {[ "scale" :=
                     Array [QJsonValue_int 1; QJsonValue_int 1;
                            QJsonValue_int 7] ]}))).
Proof.
  apply (node_translation_and_scale Examples.cornerGrid 2 3
           (Array [Examples.blank; Examples.blank; Examples.blank;
                   Examples.pixel "red" "cube" 4])
           (Examples.pixel "red" "cube" 4) "red" "cube" 4 ∅ 3);
    [reflexivity | reflexivity | vm_compute; reflexivity | lia..].
Defined.

(** C3 fails as stated: the pixel of [deepGrid] has depth 1073741825, and
    the scale of its node has -2147483647 where 2*d-1 is 2147483649. *)
Lemma scale_wraps_for_large_depth :
  retained Examples.deepGrid =
    [{| cellRow := 0; cellCol := 0; cellColor := "red";
        cellShape := "cube"; cellDepth := 1073741825 |}] ∧
  (ns ← (λ v, v.2) <$> buildUniqueVectors Examples.deepGrid [] [] [] [];
   nodesDef ← toArray <$> insertNodes ∅ ns 1 !! "nodes";
   nodeDef ← nodesDef !! 0%nat;
   toObject nodeDef !! "scale") =
    Some (Array [QJsonValue_int 1; QJsonValue_int 1;
                 QJsonValue_int (-2147483647)]) ∧
  2 * 1073741825 - 1 = 2147483649.
Proof. split_and!; vm_compute; reflexivity. Qed.

(** C4, as amended.  For every call of [write] that emits [exported], with
    [numCells] retained cells and with [height] the height field of the
    input (which [write] compares with the width field and never with the
    number of rows of the grid), where [height] is at least -2^30 and
    below 2^30: the file written holds a node array of exactly
    [numCells + 1] entries; the last entry is the root node, whose
    children are exactly 0, 1, ..., [numCells - 1] in order, whose
    translation is (0, 2*height, 0) and whose rotation is the fixed
    quaternion; and there is exactly one scene, whose node list is exactly
    [numCells], the index of the root node. *)
Theorem root_node_and_scene (P : Platform) (localFileName : string)
    (data : QJsonObject) (o : Outcome) (name : string) :
  write P localFileName data = Some o → emitted o = exported name →
  let numCells :=
    length (retained (toArray (QJsonObject_value data "pixels"))) in
  let height := toInt (QJsonObject_value data "height") in
  - 2 ^ 30 ≤ height < 2 ^ 30 →
  ∃ doc cellNodes,
    written o = Some (localFileName, doc) ∧
    length cellNodes = numCells ∧
    doc !! "nodes" =
      Some (Array
        (cellNodes ++
         [Object
            (<["children" :=
                 Array ((λ i : nat, QJsonValue_int (Z.of_nat i)) <$>
                        seq 0 numCells)]>
             (<["translation" :=
                  Array [QJsonValue_int 0; QJsonValue_int (2 * height);
                         QJsonValue_int 0]]>
              {[ "rotation" :=
                   Array [QJsonValue_int 0; QJsonValue_int 0;
                          Double (Qopp rotationComponent);
                          Double rotationComponent] ]}))])) ∧
    doc !! "scene" = Some (QJsonValue_int 0) ∧
    doc !! "scenes" =
      Some (Array [Object {[ "nodes" :=
                     Array [QJsonValue_int (Z.of_nat numCells)] ]}]).
Proof.
  intros Hw He numCells height Hh.
  destruct (write_exported _ _ _ _ _ Hw He) as [doc Hdoc].
  pose proof (write_written _ _ _ _ _ _ Hw Hdoc) as Hdesc.
  cbv zeta in Hdesc. fold height in Hdesc.
  destruct (uniqueVectors _) as [[[shapes colors] meshes] ns] eqn:Huv.
  destruct Hdesc as (_ & _ & shapeDef & ->).
  assert (length ns = numCells) as Hlen.
  { unfold uniqueVectors in Huv. injection Huv as _ _ _ <-.
    by rewrite length_fmap. }
  exists (mergeShape shapeDef (document P ns height meshes colors)),
    (nodeDef <$> ns).
  rewrite !mergeShape_other by done.
  rewrite document_nodes, document_scene, document_scenes, Hlen.
  split_and!; [done|by rewrite length_fmap| |done|done].
  unfold rootDef. assert (2 ^ 30 = 1073741824) as H30 by done.
  rewrite (int_small (2 * height)) by (unfold INT_MIN, INT_MAX; lia).
  done.
Qed.

(** [tallInput] is exported, with one cell node and the root node. *)
Lemma root_node_and_scene_witness :
  (write (Examples.platform (Bytes "cube")) "out.gltf" Examples.tallInput =
     Some Examples.tallOutcome ∧
   emitted Examples.tallOutcome = exported "out.gltf") ∧
  ∃ doc cellNodes,
    written Examples.tallOutcome = Some ("out.gltf", doc) ∧
    length cellNodes = 1%nat ∧
    doc !! "nodes" =
      Some (Array
        (cellNodes ++
         [Object
            (<["children" := Array [QJsonValue_int 0]]>
             (<["translation" :=
                  Array [QJsonValue_int 0; QJsonValue_int 10;
                         QJsonValue_int 0]]>
              {[ "rotation" :=
                   Array [QJsonValue_int 0; QJsonValue_int 0;
                          Double (Qopp rotationComponent);
                          Double rotationComponent] ]}))])) ∧
    doc !! "scene" = Some (QJsonValue_int 0) ∧
    doc !! "scenes" =
      Some (Array [Object {[ "nodes" := Array [QJsonValue_int 1] ]}]).
Proof.
  assert (- 2 ^ 30 ≤ toInt (QJsonObject_value Examples.tallInput "height")
          < 2 ^ 30) as Hh
    by (vm_compute; split; [discriminate|reflexivity]).
  pose proof (root_node_and_scene _ _ _ _ _ write_tallInput eq_refl Hh) as H.
  cbv zeta in H.
  assert (length (retained (toArray
            (QJsonObject_value Examples.tallInput "pixels"))) = 1%nat) as H1
    by (vm_compute; reflexivity).
  assert (toInt (QJsonObject_value Examples.tallInput "height") = 5) as H2
    by (vm_compute; reflexivity).
  rewrite H1, H2 in H.
  exact (conj (conj write_tallInput eq_refl) H).
Defined.

(** C4 fails as stated: [tallInput] declares width and height 5 and its
    grid has one row; the export succeeds, and the translation of the root
    node is (0, 10, 0), twice the height field, where twice the number of
    rows is 2. *)
Lemma root_translation_uses_height_field :
  length (toArray (QJsonObject_value Examples.tallInput "pixels")) = 1%nat ∧
  write (Examples.platform (Bytes "cube")) "out.gltf" Examples.tallInput =
    Some Examples.tallOutcome ∧
  (nodesDef ← toArray <$> Examples.tallDocument !! "nodes";
   rootDef ← last nodesDef;
   toObject rootDef !! "translation") =
    Some (Array [QJsonValue_int 0; QJsonValue_int 10; QJsonValue_int 0]).
Proof. split_and!; vm_compute; reflexivity. Qed.

(** C5.  For every mesh vector and every entry (shapeIndex, colorIndex) at
    index [m] of it, with a shape index that is not negative and for which
    shapeIndex*3+2 fits an [int], [insertMeshes] puts at index [m] of the
    mesh array a mesh with one primitive whose attributes are
    POSITION = shapeIndex*3 and NORMAL = shapeIndex*3+1, whose indices
    accessor is shapeIndex*3+2 and whose material is colorIndex. *)
Theorem mesh_definition (exportModel : QJsonObject) (meshes : list (Z * Z))
    (m : nat) (shapeIndex colorIndex : Z) :
  meshes !! m = Some (shapeIndex, colorIndex) →
  0 ≤ shapeIndex → shapeIndex * 3 + 2 ≤ INT_MAX →
  ∃ meshesDef,
    insertMeshes exportModel meshes !! "meshes" = Some (Array meshesDef) ∧
    meshesDef !! m =
      Some (Object {[ "primitives" :=
        Array [Object
          (<["attributes" :=
               Object (<["POSITION" := QJsonValue_int (shapeIndex * 3)]>
                       {[ "NORMAL" := QJsonValue_int (shapeIndex * 3 + 1) ]})]>
           (<["indices" := QJsonValue_int (shapeIndex * 3 + 2)]>
            {[ "material" := QJsonValue_int colorIndex ]}))] ]}).
Proof.
  intros Hm H0 Hmax. exists (meshDef <$> meshes). split.
  - unfold insertMeshes. by rewrite QJsonObject_insert_eq.
  - rewrite list_lookup_fmap, Hm. simpl. unfold meshDef. simpl.
    rewrite (int_small (shapeIndex * 3))
      by (unfold INT_MIN, INT_MAX in *; lia).
    rewrite !int_small by (unfold INT_MIN, INT_MAX in *; lia).
    done.
Qed.

(** The second of two meshes, the cube in the second color. *)
Lemma mesh_definition_witness :
  ∃ meshesDef,
    insertMeshes ∅ [(0, 0); (0, 1)] !! "meshes" = Some (Array meshesDef) ∧
    meshesDef !! 1%nat =
      Some (Object {[ "primitives" :=
        Array [Object
          (<["attributes" :=
               Object (<["POSITION" := QJsonValue_int (0 * 3)]>
                       {[ "NORMAL" := QJsonValue_int (0 * 3 + 1) ]})]>
           (<["indices" := QJsonValue_int (0 * 3 + 2)]>
            {[ "material" := QJsonValue_int 1 ]}))] ]}).
Proof.
  apply (mesh_definition ∅ [(0, 0); (0, 1)] 1 0 1);
    [reflexivity | lia | unfold INT_MAX; lia].
Defined.

(** C6.  For every document that [write] writes: the node array is the
    cell nodes followed by the root node, and the mesh of every cell node
    is an index of the mesh array; and the material of every mesh is an
    index of the material array. *)
Theorem indices_are_valid (P : Platform) (localFileName : string)
    (data : QJsonObject) (o : Outcome) (name : string) (doc : QJsonObject) :
  write P localFileName data = Some o → written o = Some (name, doc) →
  ∃ cellNodes root meshesDef materials,
    doc !! "nodes" = Some (Array (cellNodes ++ [root])) ∧
    doc !! "meshes" = Some (Array meshesDef) ∧
    doc !! "materials" = Some (Array materials) ∧
    (∀ nodeDef, nodeDef ∈ cellNodes →
       ∃ meshIndex,
         attribute nodeDef "mesh" = QJsonValue_int meshIndex ∧
         0 ≤ meshIndex < Z.of_nat (length meshesDef)) ∧
    (∀ meshDef, meshDef ∈ meshesDef →
       ∃ colorIndex,
         materialOf meshDef = QJsonValue_int colorIndex ∧
         0 ≤ colorIndex < Z.of_nat (length materials)).
Proof.
  intros Hw Hdoc. pose proof (write_written _ _ _ _ _ _ Hw Hdoc) as Hdesc.
  cbv zeta in Hdesc.
  set (cs := retained _) in Hdesc.
  pose proof (uniqueVectors_nodes_bound cs) as Hnodes.
  pose proof (uniqueVectors_meshes_bound cs) as Hmeshes.
  destruct (uniqueVectors cs) as [[[shapes colors] meshes] ns].
  destruct Hdesc as (_ & _ & shapeDef & ->).
  eexists (nodeDef <$> ns), _, (meshDef <$> meshes), _.
  rewrite !mergeShape_other by done.
  rewrite document_nodes, document_meshes, document_materials.
  split_and!; [done..| |].
  - intros ? (n & -> & Hn)%list_elem_of_fmap. exists (mesh n). split; [done|].
    rewrite length_fmap. by apply Hnodes.
  - intros ? (m & -> & Hm)%list_elem_of_fmap. exists m.2. split; [done|].
    unfold materialsFromColors. rewrite length_fmap. by apply Hmeshes.
Qed.

(** The document written for [tallInput]. *)
Lemma indices_are_valid_witness :
  ∃ cellNodes root meshesDef materials,
    Examples.tallDocument !! "nodes" = Some (Array (cellNodes ++ [root])) ∧
    Examples.tallDocument !! "meshes" = Some (Array meshesDef) ∧
    Examples.tallDocument !! "materials" = Some (Array materials) ∧
    (∀ nodeDef, nodeDef ∈ cellNodes →
       ∃ meshIndex,
         attribute nodeDef "mesh" = QJsonValue_int meshIndex ∧
         0 ≤ meshIndex < Z.of_nat (length meshesDef)) ∧
    (∀ meshDef, meshDef ∈ meshesDef →
       ∃ colorIndex,
         materialOf meshDef = QJsonValue_int colorIndex ∧
         0 ≤ colorIndex < Z.of_nat (length materials)).
Proof.
  exact (indices_are_valid _ _ _ _ _ _ write_tallInput eq_refl).
Defined.

(** C7.  For every input whose version field, read as a string, is not
    "1.0", [write] ends with the error signal that carries the file name
    and the version message, and writes nothing. *)
Theorem version_mismatch (P : Platform) (localFileName : string)
    (data : QJsonObject) :
  let version := toString (QJsonObject_value data "version") in
  version ≠ "1.0" →
  write P localFileName data =
  Some {| emitted :=
            error localFileName
              ("Invalid version number [1.0 != " +:+ version +:+ "]");
          written := None |}.
Proof.
  intros version Hv. unfold write, QJsonObject_take.
  fold version. by rewrite bool_decide_eq_true_2.
Qed.

(** An input of version 0.9. *)
Lemma version_mismatch_witness :
  write (Examples.platform (Bytes "cube")) "out.gltf"
    {[ "version" := String "0.9" ]} =
  Some {| emitted :=
            error "out.gltf" "Invalid version number [1.0 != 0.9]";
          written := None |}.
Proof.
  assert (toString (QJsonObject_value {[ "version" := String "0.9" ]}
                      "version") ≠ "1.0") as Hv
    by (vm_compute; discriminate).
  exact (version_mismatch (Examples.platform (Bytes "cube")) "out.gltf"
           {[ "version" := String "0.9" ]} Hv).
Defined.

(** C8, as amended.  For every input of version "1.0": when the width and
    height fields, read as [int] by [toInt] (a field that is absent, is
    not a number, is not a whole number or does not fit an [int] reads as
    0), differ, [write] ends with the error signal "invalid size" and
    writes nothing; when they are equal as [int], [write] goes on with the
    rest of the export ([assemble], on the input without the three fields
    read so far) and does not emit "invalid size". *)
Theorem invalid_size (P : Platform) (localFileName : string)
    (data : QJsonObject) :
  toString (QJsonObject_value data "version") = "1.0" →
  let width := toInt (QJsonObject_value data "width") in
  let height := toInt (QJsonObject_value data "height") in
  (width ≠ height →
   write P localFileName data =
   Some {| emitted := error localFileName "invalid size";
           written := None |}) ∧
  (width = height →
   write P localFileName data =
     assemble P localFileName height
       (delete "height" (delete "width" (delete "version" data))) ∧
   ∀ o, write P localFileName data = Some o →
        emitted o ≠ error localFileName "invalid size").
Proof.
  intros Hv width height. split.
  - intros Hne. rewrite write_cases. cbv zeta. rewrite Hv.
    rewrite bool_decide_eq_false_2 by (by intros ?).
    by rewrite bool_decide_eq_true_2.
  - intros Heq. split.
    + unfold write, QJsonObject_take. rewrite Hv.
      rewrite bool_decide_eq_false_2 by (by intros ?).
      rewrite !QJsonObject_value_delete_ne by done.
      by rewrite bool_decide_eq_false_2 by (by intros ?).
    + intros o. rewrite write_cases. cbv zeta. rewrite Hv.
      rewrite bool_decide_eq_false_2 by (by intros ?).
      rewrite bool_decide_eq_false_2 by (by intros ?).
      unfold exportGrid.
      destruct (uniqueVectors _) as [[[shapes colors] meshes] ns].
      destruct shapes as [|shape shapes]; [done|].
      destruct (resource P (shapeFileName shape));
        [by intros [= <-]..|].
      destruct (opensForWriting P localFileName); by intros [= <-].
Qed.

(** An input of width 4 and height 5, and [tallInput], of width and
    height 5. *)
Lemma invalid_size_witness :
  write (Examples.platform (Bytes "cube")) "out.gltf"
    (Examples.input 4 5 []) =
  Some {| emitted := error "out.gltf" "invalid size"; written := None |} ∧
  write (Examples.platform (Bytes "cube")) "out.gltf" Examples.tallInput =
  assemble (Examples.platform (Bytes "cube")) "out.gltf"
    (toInt (QJsonObject_value Examples.tallInput "height"))
    (delete "height" (delete "width" (delete "version" Examples.tallInput))).
Proof.
  assert (toInt (QJsonObject_value (Examples.input 4 5 []) "width") ≠
          toInt (QJsonObject_value (Examples.input 4 5 []) "height")) as Hne
    by (vm_compute; discriminate).
  split.
  - exact (proj1 (invalid_size (Examples.platform (Bytes "cube")) "out.gltf"
                    (Examples.input 4 5 []) eq_refl) Hne).
  - exact (proj1 (proj2 (invalid_size (Examples.platform (Bytes "cube"))
                           "out.gltf" Examples.tallInput eq_refl) eq_refl)).
Defined.

(** C8 fails as stated: [wideInput] has the width 2147483648 and the
    height 0, two unequal whole numbers; the width does not fit an [int]
    and reads as 0, so the size check is passed and the export succeeds. *)
Lemma unequal_sizes_pass_the_check :
  QJsonObject_value Examples.wideInput "width" = QJsonValue_int 2147483648 ∧
  QJsonObject_value Examples.wideInput "height" = QJsonValue_int 0 ∧
  toInt (QJsonValue_int 2147483648) = 0 ∧
  emitted <$>
    write (Examples.platform (Bytes "cube")) "out.gltf" Examples.wideInput =
    Some (exported "out.gltf").
Proof. split_and!; vm_compute; reflexivity. Qed.

(** C9, as amended.  For every input that passes the version and size
    checks and has a retained cell, the shape file looked for is the one
    of the shape of the first retained cell.  When this file does not
    exist or does not open, [insertShapeData] returns false and leaves the
    document as it is, and [write] ends, in both cases alike, with the
    error signal "Can't find or open shape files" and writes nothing.
    When the file opens, [insertShapeData] returns true whatever the
    parser makes of the bytes, and [write] does not emit this error. *)
Theorem shape_file_failure (P : Platform) (localFileName : string)
    (data : QJsonObject) (c : Cell) (cs : list Cell)
    (exportModel : QJsonObject) (shapes : list string) :
  toString (QJsonObject_value data "version") = "1.0" →
  toInt (QJsonObject_value data "width") =
    toInt (QJsonObject_value data "height") →
  retained (toArray (QJsonObject_value data "pixels")) = c :: cs →
  match resource P (shapeFileName (cellShape c)) with
  | Bytes content =>
      insertShapeData P exportModel (cellShape c :: shapes) =
        Some (true,
              mergeShape (QJsonDocument_object (fromJson P content))
                exportModel) ∧
      ∃ o, write P localFileName data = Some o ∧
           emitted o ≠ error localFileName "Can't find or open shape files"
  | _ =>
      insertShapeData P exportModel (cellShape c :: shapes) =
        Some (false, exportModel) ∧
      write P localFileName data =
        Some {| emitted :=
                  error localFileName "Can't find or open shape files";
                written := None |}
  end.
Proof.
  intros Hv Hsz Hcs. rewrite insertShapeData_cases, write_cases. cbv zeta.
  rewrite Hv, Hsz.
  rewrite bool_decide_eq_false_2 by (by intros ?).
  rewrite bool_decide_eq_false_2 by (by intros ?).
  unfold exportGrid, uniqueVectors. rewrite Hcs.
  destruct (firstSeen_cons (cellShape c) (cellShape <$> cs)) as [l Hl].
  rewrite fmap_cons, Hl.
  destruct (resource P (shapeFileName (cellShape c))); [done..|].
  split; [done|].
  destruct (opensForWriting P localFileName); eexists; split; done.
Qed.

(** [tallInput] where the cube file is missing. *)
Lemma shape_file_failure_witness :
  insertShapeData (Examples.platform NoFile) ∅ ["cube"] = Some (false, ∅) ∧
  write (Examples.platform NoFile) "out.gltf" Examples.tallInput =
    Some {| emitted := error "out.gltf" "Can't find or open shape files";
            written := None |}.
Proof.
  assert (toInt (QJsonObject_value Examples.tallInput "width") =
          toInt (QJsonObject_value Examples.tallInput "height")) as Hsz
    by (vm_compute; reflexivity).
  assert (retained (toArray (QJsonObject_value Examples.tallInput "pixels")) =
          [{| cellRow := 0; cellCol := 0; cellColor := "red";
              cellShape := "cube"; cellDepth := 1 |}]) as Hcs
    by (vm_compute; reflexivity).
  exact (shape_file_failure (Examples.platform NoFile) "out.gltf"
           Examples.tallInput _ _ ∅ [] eq_refl Hsz Hcs).
Defined.

(** C9 fails as stated: the export of [tallInput] ends the same way when
    the cube file is missing and when it is there and does not open; and
    when the file opens and its bytes do not parse, the export does not
    fail: it emits [exported]. *)
Lemma shape_file_failures_are_one :
  write (Examples.platform NoFile) "out.gltf" Examples.tallInput =
    write (Examples.platform Unopenable) "out.gltf" Examples.tallInput ∧
  fromJson (Examples.platform (Bytes "garbled")) "garbled" = NullDocument ∧
  emitted <$>
    write (Examples.platform (Bytes "garbled")) "out.gltf" Examples.tallInput =
    Some (exported "out.gltf").
Proof. split_and!; vm_compute; reflexivity. Qed.

(** C10.  For every input that passes the version and size checks,
    [write] runs into the access [shapes[0]] with no element there exactly
    when the grid has no retained cell: then, and only then, the shape
    vector that [buildUniqueVectors] returns is empty, [shapes[0]] is
    outside it, and [insertShapeData] has no shape to read. *)
Theorem no_retained_cell_no_shape (P : Platform) (localFileName : string)
    (data : QJsonObject) :
  toString (QJsonObject_value data "version") = "1.0" →
  toInt (QJsonObject_value data "width") =
    toInt (QJsonObject_value data "height") →
  let pixelMap := toArray (QJsonObject_value data "pixels") in
  (write P localFileName data = None ↔ retained pixelMap = []) ∧
  ∃ shapes colors meshes ns,
    buildUniqueVectors pixelMap [] [] [] [] =
      Some (shapes, colors, meshes, ns) ∧
    (shapes = [] ↔ retained pixelMap = []) ∧
    (at_ shapes 0 = None ↔ retained pixelMap = []) ∧
    (∀ exportModel,
       insertShapeData P exportModel shapes = None ↔ retained pixelMap = []).
Proof.
  intros Hv Hsz pixelMap. rewrite write_cases. cbv zeta. rewrite Hv, Hsz.
  rewrite bool_decide_eq_false_2 by (by intros ?).
  rewrite bool_decide_eq_false_2 by (by intros ?).
  fold pixelMap. rewrite buildUniqueVectors_spec.
  unfold exportGrid, uniqueVectors.
  destruct (retained pixelMap) as [|c cs] eqn:Hcs.
  - split; [done|]. eexists _, _, _, _. split; [done|].
    split_and!; done.
  - destruct (firstSeen_cons (cellShape c) (cellShape <$> c :: cs))
      as [l Hl].
    rewrite !fmap_cons in *. simpl in Hl.
    destruct (firstSeen_cons (cellShape c) (cellShape <$> cs)) as [l' Hl'].
    split.
    + rewrite Hl'.
      destruct (resource P (shapeFileName (cellShape c)));
        [done..|].
      destruct (opensForWriting P localFileName); done.
    + eexists _, _, _, _. split; [done|]. rewrite Hl'.
      split_and!; [done..|].
      intros exportModel. rewrite insertShapeData_cases.
      destruct (resource P (shapeFileName (cellShape c))); done.
Qed.

(** An input that passes both checks and has an empty grid. *)
Lemma no_retained_cell_no_shape_witness :
  write (Examples.platform (Bytes "cube")) "out.gltf" Examples.emptyInput =
  None.
Proof.
  assert (toInt (QJsonObject_value Examples.emptyInput "width") =
          toInt (QJsonObject_value Examples.emptyInput "height")) as Hsz
    by (vm_compute; reflexivity).
  apply (proj1 (no_retained_cell_no_shape (Examples.platform (Bytes "cube"))
                  "out.gltf" Examples.emptyInput eq_refl Hsz)).
  vm_compute. reflexivity.
Defined.

(** * Further properties of the export *)

(** ** How [write] ends *)

(** X1.  [write] emits [exported] exactly when the version is "1.0", the
    width and height fields are equal as [int], the grid has a retained
    cell, the shape file of the first retained cell opens, and the
    destination opens for writing. *)
Theorem write_succeeds_iff (P : Platform) (localFileName : string)
    (data : QJsonObject) :
  (∃ o, write P localFileName data = Some o ∧
        emitted o = exported localFileName) ↔
  toString (QJsonObject_value data "version") = "1.0" ∧
  toInt (QJsonObject_value data "width") =
    toInt (QJsonObject_value data "height") ∧
  ∃ c cs content,
    retained (toArray (QJsonObject_value data "pixels")) = c :: cs ∧
    resource P (shapeFileName (cellShape c)) = Bytes content ∧
    opensForWriting P localFileName = true.
Proof.
  rewrite write_cases. cbv zeta. unfold exportGrid, uniqueVectors.
  case_bool_decide as Hv; [split; [by intros (o & [= <-] & ?)|by intros []]|].
  case_bool_decide as Hsz;
    [split; [by intros (o & [= <-] & ?)|by intros (_ & ? & _)]|].
  destruct (retained _) as [|c cs];
    [split; [by intros (o & ? & ?)|by intros (_ & _ & ? & ? & ? & ? & _)]|].
  destruct (firstSeen_cons (cellShape c) (cellShape <$> cs)) as [l Hl].
  rewrite fmap_cons, Hl.
  destruct (resource P (shapeFileName (cellShape c))) as [| |content] eqn:Hr.
  - split; [by intros (o & [= <-] & ?)|].
    intros (_ & _ & ? & ? & ? & [= <- <-] & ? & _). congruence.
  - split; [by intros (o & [= <-] & ?)|].
    intros (_ & _ & ? & ? & ? & [= <- <-] & ? & _). congruence.
  - destruct (opensForWriting P localFileName) eqn:Hopen.
    + split; [|eauto]. intros _. split_and!; [done..|].
      by exists c, cs, content.
    + split; [by intros (o & [= <-] & ?)|].
      by intros (_ & _ & ? & ? & ? & _ & _ & ?).
Qed.

(** X2.  Whatever [write] ends with, the signal carries the destination
    file name; when the signal is an error, it is one of the four errors of
    the function and no file is written; the one file [write] ever writes
    is the destination, and then the signal is [exported]. *)
Theorem write_signal_and_file (P : Platform) (localFileName : string)
    (data : QJsonObject) (o : Outcome) :
  write P localFileName data = Some o →
  (emitted o = exported localFileName ∧
   ∃ doc, written o = Some (localFileName, doc)) ∨
  (written o = None ∧
   ∃ message,
     emitted o = error localFileName message ∧
     (message =
        "Invalid version number [1.0 != " +:+
        toString (QJsonObject_value data "version") +:+ "]" ∨
      message = "invalid size" ∨
      message = "Can't find or open shape files" ∨
      message = "Can't write to file!")).
Proof.
  rewrite write_cases. cbv zeta.
  case_bool_decide; [intros [= <-]; right; eauto 10|].
  case_bool_decide; [intros [= <-]; right; eauto 10|].
  unfold exportGrid.
  destruct (uniqueVectors _) as [[[shapes colors] meshes] ns].
  destruct shapes as [|shape shapes]; [done|].
  destruct (resource P (shapeFileName shape));
    [intros [= <-]; right; eauto 10..|].
  destruct (opensForWriting P localFileName); intros [= <-];
    [left | right]; eauto 10.
Qed.

Lemma write_signal_and_file_witness :
  (emitted Examples.tallOutcome = exported "out.gltf" ∧
   ∃ doc, written Examples.tallOutcome = Some ("out.gltf", doc)) ∨
  (written Examples.tallOutcome = None ∧
   ∃ message,
     emitted Examples.tallOutcome = error "out.gltf" message ∧
     (message =
        "Invalid version number [1.0 != " +:+
        toString (QJsonObject_value Examples.tallInput "version") +:+ "]" ∨
      message = "invalid size" ∨
      message = "Can't find or open shape files" ∨
      message = "Can't write to file!")).
Proof. exact (write_signal_and_file _ _ _ _ write_tallInput). Defined.

(** X3.  For every input that passes the version and size checks and whose
    first retained cell has a shape file that opens: when the destination
    does not open for writing, [write] ends with the error signal
    "Can't write to file!" and writes nothing. *)
Theorem destination_does_not_open (P : Platform) (localFileName : string)
    (data : QJsonObject) (c : Cell) (cs : list Cell) (content : string) :
  toString (QJsonObject_value data "version") = "1.0" →
  toInt (QJsonObject_value data "width") =
    toInt (QJsonObject_value data "height") →
  retained (toArray (QJsonObject_value data "pixels")) = c :: cs →
  resource P (shapeFileName (cellShape c)) = Bytes content →
  opensForWriting P localFileName = false →
  write P localFileName data =
  Some {| emitted := error localFileName "Can't write to file!";
          written := None |}.
Proof.
  intros Hv Hsz Hcs Hr Hopen. rewrite write_cases. cbv zeta.
  rewrite Hv, Hsz.
  rewrite bool_decide_eq_false_2 by (by intros ?).
  rewrite bool_decide_eq_false_2 by (by intros ?).
  unfold exportGrid, uniqueVectors. rewrite Hcs.
  destruct (firstSeen_cons (cellShape c) (cellShape <$> cs)) as [l Hl].
  rewrite fmap_cons, Hl, Hr, Hopen. done.
Qed.

Lemma destination_does_not_open_witness :
  write Examples.readOnly "out.gltf" Examples.tallInput =
  Some {| emitted := error "out.gltf" "Can't write to file!";
          written := None |}.
Proof.
  assert (toInt (QJsonObject_value Examples.tallInput "width") =
          toInt (QJsonObject_value Examples.tallInput "height")) as Hsz
    by (vm_compute; reflexivity).
  assert (retained (toArray (QJsonObject_value Examples.tallInput "pixels")) =
          [{| cellRow := 0; cellCol := 0; cellColor := "red";
              cellShape := "cube"; cellDepth := 1 |}]) as Hcs
    by (vm_compute; reflexivity).
  exact (destination_does_not_open Examples.readOnly "out.gltf"
           Examples.tallInput _ _ "cube" eq_refl Hsz Hcs eq_refl eq_refl).
Defined.

(** X4.  The only resource file [write] looks at is the shape file of the
    first retained cell: with other resource files that agree on this one
    file, [write] ends the same way, whatever the other shapes of the grid
    and their files are. *)
Theorem only_first_shape_file_is_read (P : Platform)
    (files : string → QFile) (localFileName : string) (data : QJsonObject) :
  (∀ c cs,
     retained (toArray (QJsonObject_value data "pixels")) = c :: cs →
     files (shapeFileName (cellShape c)) =
     resource P (shapeFileName (cellShape c))) →
  write (withResource P files) localFileName data =
  write P localFileName data.
Proof.
  intros Hfiles. rewrite !write_cases. cbv zeta.
  case_bool_decide; [done|]. case_bool_decide; [done|].
  unfold exportGrid, uniqueVectors.
  destruct (retained _) as [|c cs]; [done|].
  destruct (firstSeen_cons (cellShape c) (cellShape <$> cs)) as [l Hl].
  rewrite fmap_cons, Hl. simpl. by rewrite (Hfiles c cs eq_refl).
Qed.

Lemma only_first_shape_file_is_read_witness :
  write (withResource (Examples.platform (Bytes "cube"))
           (λ name,
              if bool_decide (name = ":/ui/exports/cube.gltf")
              then Bytes "cube" else Unopenable))
    "out.gltf" Examples.tallInput =
  write (Examples.platform (Bytes "cube")) "out.gltf" Examples.tallInput.
Proof.
  apply only_first_shape_file_is_read.
  assert (retained (toArray (QJsonObject_value Examples.tallInput "pixels")) =
          [{| cellRow := 0; cellCol := 0; cellColor := "red";
              cellShape := "cube"; cellDepth := 1 |}]) as Hcs
    by (vm_compute; reflexivity).
  intros c cs. rewrite Hcs. intros [= <- <-]. reflexivity.
Defined.

(** X5.  For every input that passes the version and size checks and whose
    pixels field is absent or is not an array, [write] takes the grid for
    empty, emits no error, and runs into the access [shapes[0]] on the
    empty shape vector. *)
Theorem no_pixels_array (P : Platform) (localFileName : string)
    (data : QJsonObject) :
  toString (QJsonObject_value data "version") = "1.0" →
  toInt (QJsonObject_value data "width") =
    toInt (QJsonObject_value data "height") →
  (∀ a, QJsonObject_value data "pixels" ≠ Array a) →
  buildUniqueVectors (toArray (QJsonObject_value data "pixels")) [] [] [] [] =
    Some ([], [], [], []) ∧
  write P localFileName data = None.
Proof.
  intros Hv Hsz Hpixels.
  assert (toArray (QJsonObject_value data "pixels") = []) as Hempty.
  { destruct (QJsonObject_value data "pixels"); try done.
    by edestruct Hpixels. }
  rewrite write_cases. cbv zeta. rewrite Hv, Hsz, Hempty.
  rewrite bool_decide_eq_false_2 by (by intros ?).
  rewrite bool_decide_eq_false_2 by (by intros ?).
  rewrite buildUniqueVectors_spec. done.
Qed.

Lemma no_pixels_array_witness :
  buildUniqueVectors
    (toArray (QJsonObject_value Examples.noPixels "pixels")) [] [] [] [] =
    Some ([], [], [], []) ∧
  write (Examples.platform (Bytes "cube")) "out.gltf" Examples.noPixels = None.
Proof.
  assert (toInt (QJsonObject_value Examples.noPixels "width") =
          toInt (QJsonObject_value Examples.noPixels "height")) as Hsz
    by (vm_compute; reflexivity).
  apply (no_pixels_array (Examples.platform (Bytes "cube")) "out.gltf"
           Examples.noPixels eq_refl Hsz).
  intros a. vm_compute. discriminate.
Defined.

(** ** The document that is written *)

Lemma QJsonObject_insert_lookup (o : QJsonObject) (k : string)
    (v : QJsonValue) :
  QJsonObject_insert k v o !! k =
  match v with Undefined => None | _ => Some v end.
Proof.
  unfold QJsonObject_insert.
  destruct v; by rewrite ?lookup_insert_eq, ?lookup_delete_eq.
Qed.

Lemma mergeShape_lookup (shapeDef exportModel : QJsonObject) (key : string) :
  key ∈ ["buffers"; "bufferViews"; "accessors"] →
  mergeShape shapeDef exportModel !! key =
  match QJsonObject_value shapeDef key with
  | Undefined => None
  | v => Some v
  end.
Proof.
  intros Hkey. unfold mergeShape. rewrite !elem_of_cons in Hkey.
  destruct Hkey as [->|[->|[->|[]%elem_of_nil]]].
  - rewrite !QJsonObject_insert_ne by done.
    rewrite QJsonObject_insert_lookup. by destruct (QJsonObject_value _ _).
  - rewrite !QJsonObject_insert_ne by done.
    rewrite QJsonObject_insert_lookup. by destruct (QJsonObject_value _ _).
  - rewrite QJsonObject_insert_lookup. by destruct (QJsonObject_value _ _).
Qed.

Lemma mergeShape_value (shapeDef exportModel : QJsonObject) (key : string) :
  key ∈ ["buffers"; "bufferViews"; "accessors"] →
  QJsonObject_value (mergeShape shapeDef exportModel) key =
  QJsonObject_value shapeDef key.
Proof.
  intros Hkey. unfold QJsonObject_value at 1.
  rewrite mergeShape_lookup by done.
  by destruct (QJsonObject_value shapeDef key).
Qed.

Lemma document_asset (P : Platform) (ns : list Node) (height : Z)
    (meshes : list (Z * Z)) (colors : list string) :
  document P ns height meshes colors !! "asset" =
  Some (Object (<["generator" := String "Pixel Model Maker"]>
                {[ "version" := String "2.0" ]})).
Proof.
  unfold document, insertMaterials, insertMeshes, insertNodes, insertScene,
    insertInfo.
  rewrite !QJsonObject_insert_ne by done.
  by rewrite QJsonObject_insert_eq.
Qed.

Lemma document_other (P : Platform) (ns : list Node) (height : Z)
    (meshes : list (Z * Z)) (colors : list string) (key : string) :
  key ∉ ["asset"; "scene"; "scenes"; "nodes"; "meshes"; "materials"] →
  document P ns height meshes colors !! key = None.
Proof.
  rewrite !not_elem_of_cons. intros (? & ? & ? & ? & ? & ? & _).
  unfold document, insertMaterials, insertMeshes, insertNodes, insertScene,
    insertInfo.
  by rewrite !QJsonObject_insert_ne by done.
Qed.

(** The document that [write] wrote, and where its shape data are from. *)
Lemma written_document (P : Platform) (localFileName : string)
    (data : QJsonObject) (o : Outcome) (name : string) (doc : QJsonObject) :
  write P localFileName data = Some o → written o = Some (name, doc) →
  ∃ c cs content,
    retained (toArray (QJsonObject_value data "pixels")) = c :: cs ∧
    resource P (shapeFileName (cellShape c)) = Bytes content ∧
    doc =
      mergeShape (QJsonDocument_object (fromJson P content))
        (document P (uniqueVectors (c :: cs)).2
           (toInt (QJsonObject_value data "height"))
           (uniqueVectors (c :: cs)).1.2 (uniqueVectors (c :: cs)).1.1.2).
Proof.
  rewrite write_cases. cbv zeta.
  case_bool_decide; [by intros [= <-]|].
  case_bool_decide; [by intros [= <-]|].
  unfold exportGrid.
  destruct (retained _) as [|c cs] eqn:Hcs; [done|].
  destruct (uniqueVectors (c :: cs)) as [[[shapes colors] meshes] ns] eqn:Huv.
  assert (∃ l, shapes = cellShape c :: l) as [l ->].
  { unfold uniqueVectors in Huv. injection Huv as <- _ _ _.
    apply firstSeen_cons. }
  destruct (resource P (shapeFileName (cellShape c))) as [| |content] eqn:Hr;
    [by intros [= <-]..|].
  destruct (opensForWriting P localFileName); [|by intros [= <-]].
  intros [= <-]. cbn [written]. intros [= <- <-]. exists c, cs, content.
  split_and!; [reflexivity | exact Hr | by rewrite Huv].
Qed.

Lemma retained_tallInput :
  retained (toArray (QJsonObject_value Examples.tallInput "pixels")) =
  [{| cellRow := 0; cellCol := 0; cellColor := "red";
      cellShape := "cube"; cellDepth := 1 |}].
Proof. vm_compute. reflexivity. Defined.

(** X6.  Every document that [write] writes has the keys asset, scene,
    scenes, nodes, meshes and materials, has no key other than these and
    buffers, bufferViews and accessors, and its asset is the generator
    name "Pixel Model Maker" with the glTF version "2.0". *)
Theorem document_keys (P : Platform) (localFileName : string)
    (data : QJsonObject) (o : Outcome) (name : string) (doc : QJsonObject) :
  write P localFileName data = Some o → written o = Some (name, doc) →
  doc !! "asset" =
    Some (Object (<["generator" := String "Pixel Model Maker"]>
                  {[ "version" := String "2.0" ]})) ∧
  (∀ key,
     key ∈ ["asset"; "scene"; "scenes"; "nodes"; "meshes"; "materials"] →
     is_Some (doc !! key)) ∧
  (∀ key,
     is_Some (doc !! key) →
     key ∈ ["asset"; "scene"; "scenes"; "nodes"; "meshes"; "materials";
            "buffers"; "bufferViews"; "accessors"]).
Proof.
  intros Hw Hdoc.
  destruct (written_document _ _ _ _ _ _ Hw Hdoc)
    as (c & cs & content & _ & _ & ->).
  split_and!.
  - rewrite mergeShape_other by done. apply document_asset.
  - intros key. rewrite !elem_of_cons.
    intros [->|[->|[->|[->|[->|[->|[]%elem_of_nil]]]]]];
      rewrite mergeShape_other by done.
    + by rewrite document_asset.
    + by rewrite document_scene.
    + by rewrite document_scenes.
    + by rewrite document_nodes.
    + by rewrite document_meshes.
    + by rewrite document_materials.
  - intros key Hkey.
    destruct (decide (key ∈ ["buffers"; "bufferViews"; "accessors"]))
      as [Hin|Hout].
    { rewrite !elem_of_cons in *. tauto. }
    destruct (decide
      (key ∈ ["asset"; "scene"; "scenes"; "nodes"; "meshes"; "materials"]))
      as [Hin'|Hout'].
    { rewrite !elem_of_cons in *. tauto. }
    rewrite !not_elem_of_cons in Hout. destruct Hout as (? & ? & ? & _).
    rewrite mergeShape_other, document_other in Hkey by done.
    by destruct Hkey.
Qed.

Lemma document_keys_witness :
  Examples.tallDocument !! "asset" =
    Some (Object (<["generator" := String "Pixel Model Maker"]>
                  {[ "version" := String "2.0" ]})) ∧
  (∀ key,
     key ∈ ["asset"; "scene"; "scenes"; "nodes"; "meshes"; "materials"] →
     is_Some (Examples.tallDocument !! key)) ∧
  (∀ key,
     is_Some (Examples.tallDocument !! key) →
     key ∈ ["asset"; "scene"; "scenes"; "nodes"; "meshes"; "materials";
            "buffers"; "bufferViews"; "accessors"]).
Proof. exact (document_keys _ _ _ _ _ _ write_tallInput eq_refl). Defined.

(** X7.  In every document that [write] writes, the values of buffers,
    bufferViews and accessors are those of the object parsed from the
    shape file of the first retained cell, key by key; a key that this
    object lacks is not in the document. *)
Theorem shape_data_are_copied (P : Platform) (localFileName : string)
    (data : QJsonObject) (o : Outcome) (name : string) (doc : QJsonObject)
    (c : Cell) (cs : list Cell) (content : string) :
  write P localFileName data = Some o → written o = Some (name, doc) →
  retained (toArray (QJsonObject_value data "pixels")) = c :: cs →
  resource P (shapeFileName (cellShape c)) = Bytes content →
  ∀ key, key ∈ ["buffers"; "bufferViews"; "accessors"] →
    QJsonObject_value doc key =
      QJsonObject_value (QJsonDocument_object (fromJson P content)) key ∧
    (QJsonDocument_object (fromJson P content) !! key = None →
     doc !! key = None).
Proof.
  intros Hw Hdoc Hcs Hr key Hkey.
  destruct (written_document _ _ _ _ _ _ Hw Hdoc)
    as (c' & cs' & content' & Hcs' & Hr' & ->).
  rewrite Hcs in Hcs'. injection Hcs' as <- <-.
  rewrite Hr in Hr'. injection Hr' as <-.
  split; [by apply mergeShape_value|].
  intros Hnone. rewrite mergeShape_lookup by done.
  unfold QJsonObject_value. by rewrite Hnone.
Qed.

Lemma shape_data_are_copied_witness :
  QJsonObject_value Examples.tallDocument "buffers" =
    Array [Object {[ "byteLength" := QJsonValue_int 840 ]}] ∧
  QJsonObject_value Examples.tallDocument "bufferViews" = Array [] ∧
  QJsonObject_value Examples.tallDocument "accessors" = Array [].
Proof.
  pose proof (shape_data_are_copied _ _ _ _ _ _ _ _ _ write_tallInput eq_refl
                retained_tallInput eq_refl) as H.
  split_and!.
  - exact (proj1 (H "buffers" ltac:(rewrite !elem_of_cons; tauto))).
  - exact (proj1 (H "bufferViews" ltac:(rewrite !elem_of_cons; tauto))).
  - exact (proj1 (H "accessors" ltac:(rewrite !elem_of_cons; tauto))).
Defined.

(** X8.  For every input that passes the version and size checks, when
    the shape file of the first retained cell opens, its bytes do not
    parse to an object, and the destination opens for writing, the export
    is not stopped: [write] emits [exported] and writes a document, and
    this document has none of the keys buffers, bufferViews and
    accessors. *)
Theorem unparsed_shape_file (P : Platform) (localFileName : string)
    (data : QJsonObject) (c : Cell) (cs : list Cell) (content : string) :
  toString (QJsonObject_value data "version") = "1.0" →
  toInt (QJsonObject_value data "width") =
    toInt (QJsonObject_value data "height") →
  retained (toArray (QJsonObject_value data "pixels")) = c :: cs →
  resource P (shapeFileName (cellShape c)) = Bytes content →
  (∀ shapeDef, fromJson P content ≠ ObjectDocument shapeDef) →
  opensForWriting P localFileName = true →
  ∃ doc,
    write P localFileName data =
      Some {| emitted := exported localFileName;
              written := Some (localFileName, doc) |} ∧
    doc !! "buffers" = None ∧ doc !! "bufferViews" = None ∧
    doc !! "accessors" = None.
Proof.
  intros Hv Hsz Hcs Hr Hparse Hopen. rewrite write_cases. cbv zeta.
  rewrite Hv, Hsz.
  rewrite bool_decide_eq_false_2 by (by intros ?).
  rewrite bool_decide_eq_false_2 by (by intros ?).
  unfold exportGrid. rewrite Hcs.
  destruct (uniqueVectors (c :: cs)) as [[[shapes colors] meshes] ns] eqn:Huv.
  assert (∃ l, shapes = cellShape c :: l) as [l ->].
  { unfold uniqueVectors in Huv. injection Huv as <- _ _ _.
    apply firstSeen_cons. }
  rewrite Hr, Hopen.
  assert (QJsonDocument_object (fromJson P content) = ∅) as ->.
  { destruct (fromJson P content); try done. by edestruct Hparse. }
  eexists. split; [reflexivity|].
  rewrite !mergeShape_lookup by (rewrite !elem_of_cons; tauto).
  unfold QJsonObject_value. by rewrite !lookup_empty.
Qed.

Lemma unparsed_shape_file_witness :
  ∃ doc,
    write (Examples.platform (Bytes "garbled")) "out.gltf"
      Examples.tallInput =
      Some {| emitted := exported "out.gltf";
              written := Some ("out.gltf", doc) |} ∧
    doc !! "buffers" = None ∧ doc !! "bufferViews" = None ∧
    doc !! "accessors" = None.
Proof.
  assert (toInt (QJsonObject_value Examples.tallInput "width") =
          toInt (QJsonObject_value Examples.tallInput "height")) as Hsz
    by (vm_compute; reflexivity).
  assert (∀ shapeDef,
            fromJson (Examples.platform (Bytes "garbled")) "garbled" ≠
            ObjectDocument shapeDef) as Hparse
    by (intros shapeDef; vm_compute; discriminate).
  exact (unparsed_shape_file (Examples.platform (Bytes "garbled")) "out.gltf"
           Examples.tallInput _ _ "garbled" eq_refl Hsz retained_tallInput
           eq_refl Hparse eq_refl).
Defined.

Lemma materialsFromColors_lookup (P : Platform) (colors : list string)
    (i : nat) (color : string) :
  colors !! i = Some color →
  materialsFromColors (namedColor P) colors
    (metallicFactor P) (roughnessFactor P) !! i =
  Some (materialDef (namedColor P color) (metallicFactor P)
          (roughnessFactor P)).
Proof.
  intros Hi. unfold materialsFromColors. by rewrite list_lookup_fmap, Hi.
Qed.

(** X9.  In every document that [write] writes, each retained cell is
    drawn in its own color: the node of the cell names a mesh of the mesh
    array, this mesh names a material of the material array, and this
    material is the one made from the color of the cell, with the color's
    four channels as base color and the two default factors. *)
Theorem cell_color_reaches_material (P : Platform) (localFileName : string)
    (data : QJsonObject) (o : Outcome) (name : string) (doc : QJsonObject)
    (t : nat) (c : Cell) :
  write P localFileName data = Some o → written o = Some (name, doc) →
  retained (toArray (QJsonObject_value data "pixels")) !! t = Some c →
  ∃ nodesDef meshesDef materials nodeDef meshIndex meshDef colorIndex,
    doc !! "nodes" = Some (Array nodesDef) ∧
    doc !! "meshes" = Some (Array meshesDef) ∧
    doc !! "materials" = Some (Array materials) ∧
    nodesDef !! t = Some nodeDef ∧
    attribute nodeDef "mesh" = QJsonValue_int meshIndex ∧
    at_ meshesDef meshIndex = Some meshDef ∧
    materialOf meshDef = QJsonValue_int colorIndex ∧
    at_ materials colorIndex =
      Some (materialDef (namedColor P (cellColor c)) (metallicFactor P)
              (roughnessFactor P)).
Proof.
  intros Hw Hdoc Ht.
  destruct (written_document _ _ _ _ _ _ Hw Hdoc)
    as (c0 & cs0 & content & Hcs & _ & ->).
  rewrite Hcs in Ht. clear Hcs. remember (c0 :: cs0) as cs eqn:Heqcs.
  clear Heqcs. pose proof (list_elem_of_lookup_2 _ _ _ Ht) as Hin.
  unfold uniqueVectors. cbn [fst snd].
  set (shapes := firstSeen (cellShape <$> cs)).
  set (colors := firstSeen (cellColor <$> cs)).
  set (meshes := firstSeen (pairOf shapes colors <$> cs)).
  assert (pairOf shapes colors c ∈ meshes) as Hmesh
    by (apply elem_of_firstSeen, list_elem_of_fmap; eauto).
  assert (cellColor c ∈ colors) as Hcolor
    by (apply elem_of_firstSeen, list_elem_of_fmap; eauto).
  eexists _, _, _, (nodeDef (nodeOf shapes colors meshes c)),
    (Z.of_nat (position (pairOf shapes colors c) meshes)),
    (meshDef (pairOf shapes colors c)),
    (Z.of_nat (position (cellColor c) colors)).
  rewrite !mergeShape_other by done.
  rewrite document_nodes, document_meshes, document_materials.
  split_and!; [done..| | | | |].
  - rewrite lookup_app_l
      by (rewrite !length_fmap; by eapply lookup_lt_Some).
    by rewrite !list_lookup_fmap, Ht.
  - done.
  - rewrite at_of_nat, list_lookup_fmap, lookup_position by done. done.
  - done.
  - rewrite at_of_nat. apply materialsFromColors_lookup.
    by apply lookup_position.
Qed.

Lemma cell_color_reaches_material_witness :
  ∃ nodesDef meshesDef materials nodeDef meshIndex meshDef colorIndex,
    Examples.tallDocument !! "nodes" = Some (Array nodesDef) ∧
    Examples.tallDocument !! "meshes" = Some (Array meshesDef) ∧
    Examples.tallDocument !! "materials" = Some (Array materials) ∧
    nodesDef !! 0%nat = Some nodeDef ∧
    attribute nodeDef "mesh" = QJsonValue_int meshIndex ∧
    at_ meshesDef meshIndex = Some meshDef ∧
    materialOf meshDef = QJsonValue_int colorIndex ∧
    at_ materials colorIndex =
      Some (materialDef
              {| redF := 1; greenF := 0; blueF := 0; alphaF := 1 |} 0 1).
Proof.
  assert (retained (toArray (QJsonObject_value Examples.tallInput "pixels"))
            !! 0%nat =
          Some {| cellRow := 0; cellCol := 0; cellColor := "red";
                  cellShape := "cube"; cellDepth := 1 |}) as Ht
    by (rewrite retained_tallInput; reflexivity).
  exact (cell_color_reaches_material _ _ _ _ _ _ _ _ write_tallInput eq_refl
           Ht).
Defined.

(** X10.  When all retained cells have the same shape, which is what the
    export supports, every mesh of a document that [write] writes uses
    the accessors 0 (POSITION), 1 (NORMAL) and 2 (indices). *)
Theorem one_shape_accessors (P : Platform) (localFileName : string)
    (data : QJsonObject) (o : Outcome) (name : string) (doc : QJsonObject)
    (shape : string) :
  write P localFileName data = Some o → written o = Some (name, doc) →
  (∀ c, c ∈ retained (toArray (QJsonObject_value data "pixels")) →
        cellShape c = shape) →
  ∃ meshesDef,
    doc !! "meshes" = Some (Array meshesDef) ∧
    ∀ meshDef, meshDef ∈ meshesDef →
      ∃ colorIndex,
        meshDef =
          Object {[ "primitives" :=
            Array [Object
              (<["attributes" :=
                   Object (<["POSITION" := QJsonValue_int 0]>
                           {[ "NORMAL" := QJsonValue_int 1 ]})]>
               (<["indices" := QJsonValue_int 2]>
                {[ "material" := QJsonValue_int colorIndex ]}))] ]}.
Proof.
  intros Hw Hdoc Hshape.
  destruct (written_document _ _ _ _ _ _ Hw Hdoc)
    as (c0 & cs0 & content & Hcs & _ & ->).
  rewrite Hcs in Hshape. clear Hcs. remember (c0 :: cs0) as cs eqn:Heqcs.
  eexists. rewrite mergeShape_other by done. rewrite document_meshes.
  split; [done|].
  intros ? (m & -> & Hm)%list_elem_of_fmap.
  unfold uniqueVectors in Hm. cbn [fst snd] in Hm.
  apply elem_of_firstSeen, list_elem_of_fmap in Hm as (c & -> & Hc).
  exists (Z.of_nat (position (cellColor c)
                      (firstSeen (cellColor <$> cs)))).
  assert (position (cellShape c) (firstSeen (cellShape <$> cs)) = 0%nat)
    as Hpos.
  { destruct (firstSeen_cons (cellShape c0) (cellShape <$> cs0)) as [l Hl].
    rewrite (Hshape c Hc), Heqcs, fmap_cons, Hl. simpl.
    rewrite decide_True; [done|].
    apply Hshape. rewrite Heqcs. by left. }
  unfold meshDef, pairOf. cbn [fst snd]. rewrite Hpos. done.
Qed.

Lemma one_shape_accessors_witness :
  ∃ meshesDef,
    Examples.tallDocument !! "meshes" = Some (Array meshesDef) ∧
    ∀ meshDef, meshDef ∈ meshesDef →
      ∃ colorIndex,
        meshDef =
          Object {[ "primitives" :=
            Array [Object
              (<["attributes" :=
                   Object (<["POSITION" := QJsonValue_int 0]>
                           {[ "NORMAL" := QJsonValue_int 1 ]})]>
               (<["indices" := QJsonValue_int 2]>
                {[ "material" := QJsonValue_int colorIndex ]}))] ]}.
Proof.
  apply (one_shape_accessors _ _ _ _ _ _ "cube" write_tallInput eq_refl).
  intros c. rewrite retained_tallInput.
  intros ->%list_elem_of_singleton. reflexivity.
Defined.

(** ** The vectors of [buildUniqueVectors] *)

Lemma position_inj `{EqDecision K} (l : list K) (k1 k2 : K) :
  k1 ∈ l → k2 ∈ l → position k1 l = position k2 l → k1 = k2.
Proof.
  intros H1%lookup_position H2%lookup_position Heq.
  rewrite Heq in H1. congruence.
Qed.

Lemma buildUniqueVectors_Some (pixelMap : QJsonArray)
    (shapes colors : list string) (meshes : list (Z * Z)) (ns : list Node) :
  buildUniqueVectors pixelMap [] [] [] [] =
    Some (shapes, colors, meshes, ns) →
  let cs := retained pixelMap in
  shapes = firstSeen (cellShape <$> cs) ∧
  colors = firstSeen (cellColor <$> cs) ∧
  meshes = firstSeen (pairOf shapes colors <$> cs) ∧
  ns = nodeOf shapes colors meshes <$> cs.
Proof.
  rewrite buildUniqueVectors_spec. unfold uniqueVectors.
  intros [= <- <- <- <-]. done.
Qed.

(** X11.  Two retained cells share a mesh exactly when they have the same
    shape and the same color: the mesh indices of their nodes are equal if
    and only if both their shapes and their colors are. *)
Theorem same_mesh_iff_same_shape_and_color (pixelMap : QJsonArray)
    (shapes colors : list string) (meshes : list (Z * Z)) (ns : list Node)
    (t1 t2 : nat) (c1 c2 : Cell) (n1 n2 : Node) :
  buildUniqueVectors pixelMap [] [] [] [] =
    Some (shapes, colors, meshes, ns) →
  retained pixelMap !! t1 = Some c1 → retained pixelMap !! t2 = Some c2 →
  ns !! t1 = Some n1 → ns !! t2 = Some n2 →
  mesh n1 = mesh n2 ↔
  cellShape c1 = cellShape c2 ∧ cellColor c1 = cellColor c2.
Proof.
  intros (Hs & Hc & Hm & ->)%buildUniqueVectors_Some Hc1 Hc2.
  rewrite !list_lookup_fmap, Hc1, Hc2. intros [= <-] [= <-]. simpl.
  pose proof (list_elem_of_lookup_2 _ _ _ Hc1) as Hin1.
  pose proof (list_elem_of_lookup_2 _ _ _ Hc2) as Hin2.
  assert (∀ c, c ∈ retained pixelMap → cellShape c ∈ shapes) as Hshape
    by (intros; subst shapes; apply elem_of_firstSeen, list_elem_of_fmap;
        eauto).
  assert (∀ c, c ∈ retained pixelMap → cellColor c ∈ colors) as Hcolor
    by (intros; subst colors; apply elem_of_firstSeen, list_elem_of_fmap;
        eauto).
  assert (∀ c, c ∈ retained pixelMap → pairOf shapes colors c ∈ meshes)
    as Hpair
    by (intros; subst meshes; apply elem_of_firstSeen, list_elem_of_fmap;
        eauto).
  split.
  - intros Heq%Nat2Z.inj%position_inj; [|by apply Hpair..].
    unfold pairOf in Heq. injection Heq as Hp1%Nat2Z.inj Hp2%Nat2Z.inj.
    split; eapply position_inj; eauto.
  - intros [Hes Hec]. unfold pairOf. by rewrite Hes, Hec.
Qed.

Lemma build_abaGrid :
  buildUniqueVectors Examples.abaGrid [] [] [] [] =
  Some (["cube"], ["A"; "B"], [(0, 0); (0, 1)],
        [{| mesh := 0; depth := 1; row := 0; col := 0 |};
         {| mesh := 1; depth := 1; row := 0; col := 1 |};
         {| mesh := 0; depth := 1; row := 0; col := 2 |}]).
Proof. vm_compute. reflexivity. Defined.

Lemma retained_abaGrid :
  retained Examples.abaGrid =
  [{| cellRow := 0; cellCol := 0; cellColor := "A"; cellShape := "cube";
      cellDepth := 1 |};
   {| cellRow := 0; cellCol := 1; cellColor := "B"; cellShape := "cube";
      cellDepth := 1 |};
   {| cellRow := 0; cellCol := 2; cellColor := "A"; cellShape := "cube";
      cellDepth := 1 |}].
Proof. vm_compute. reflexivity. Defined.

Lemma same_mesh_iff_same_shape_and_color_witness :
  (0 : Z) = 0 ↔ "cube" = "cube" ∧ "A" = "A".
Proof.
  refine (same_mesh_iff_same_shape_and_color Examples.abaGrid _ _ _ _ 0 2
            {| cellRow := 0; cellCol := 0; cellColor := "A";
               cellShape := "cube"; cellDepth := 1 |}
            {| cellRow := 0; cellCol := 2; cellColor := "A";
               cellShape := "cube"; cellDepth := 1 |}
            {| mesh := 0; depth := 1; row := 0; col := 0 |}
            {| mesh := 0; depth := 1; row := 0; col := 2 |}
            build_abaGrid _ _ eq_refl eq_refl);
    rewrite retained_abaGrid; reflexivity.
Defined.

Lemma indices_used (pixelMap : QJsonArray)
    (shapes colors : list string) (meshes : list (Z * Z)) (ns : list Node) :
  buildUniqueVectors pixelMap [] [] [] [] =
    Some (shapes, colors, meshes, ns) →
  (∀ i m, meshes !! i = Some m → ∃ n, n ∈ ns ∧ mesh n = Z.of_nat i) ∧
  (∀ i s, shapes !! i = Some s → ∃ m, m ∈ meshes ∧ m.1 = Z.of_nat i) ∧
  (∀ i c, colors !! i = Some c → ∃ m, m ∈ meshes ∧ m.2 = Z.of_nat i).
Proof.
  intros (Hs & Hc & Hm & ->)%buildUniqueVectors_Some.
  assert (∀ c, c ∈ retained pixelMap → pairOf shapes colors c ∈ meshes)
    as Hpair
    by (intros; subst meshes; apply elem_of_firstSeen, list_elem_of_fmap;
        eauto).
  split_and!.
  - intros i m Hi. pose proof (list_elem_of_lookup_2 _ _ _ Hi) as Hin.
    rewrite Hm in Hin.
    apply elem_of_firstSeen, list_elem_of_fmap in Hin as (c & -> & Hin).
    exists (nodeOf shapes colors meshes c). split.
    + apply list_elem_of_fmap. eauto.
    + simpl. f_equal. apply position_lookup; [|done].
      subst meshes. apply NoDup_firstSeen.
  - intros i s Hi. pose proof (list_elem_of_lookup_2 _ _ _ Hi) as Hin.
    rewrite Hs in Hin.
    apply elem_of_firstSeen, list_elem_of_fmap in Hin as (c & -> & Hin).
    exists (pairOf shapes colors c). split; [by apply Hpair|].
    simpl. f_equal. apply position_lookup; [|done].
    subst shapes. apply NoDup_firstSeen.
  - intros i col Hi. pose proof (list_elem_of_lookup_2 _ _ _ Hi) as Hin.
    rewrite Hc in Hin.
    apply elem_of_firstSeen, list_elem_of_fmap in Hin as (c & -> & Hin).
    exists (pairOf shapes colors c). split; [by apply Hpair|].
    simpl. f_equal. apply position_lookup; [|done].
    subst colors. apply NoDup_firstSeen.
Qed.

(** X12.  [buildUniqueVectors] returns nothing unused: every mesh is the
    mesh of some node, every shape index is the shape of some mesh, and
    every color index is the color of some mesh. *)
Theorem every_index_is_used (pixelMap : QJsonArray)
    (shapes colors : list string) (meshes : list (Z * Z)) (ns : list Node) :
  buildUniqueVectors pixelMap [] [] [] [] =
    Some (shapes, colors, meshes, ns) →
  (∀ i m, meshes !! i = Some m → ∃ n, n ∈ ns ∧ mesh n = Z.of_nat i) ∧
  (∀ i s, shapes !! i = Some s → ∃ m, m ∈ meshes ∧ m.1 = Z.of_nat i) ∧
  (∀ i c, colors !! i = Some c → ∃ m, m ∈ meshes ∧ m.2 = Z.of_nat i).
Proof. apply indices_used. Qed.

Lemma every_index_is_used_witness :
  (∀ i m, [(0, 0); (0, 1)] !! i = Some m →
     ∃ n, n ∈ [{| mesh := 0; depth := 1; row := 0; col := 0 |};
               {| mesh := 1; depth := 1; row := 0; col := 1 |};
               {| mesh := 0; depth := 1; row := 0; col := 2 |}] ∧
          mesh n = Z.of_nat i) ∧
  (∀ i s, ["cube"] !! i = Some s →
     ∃ m, m ∈ [(0, 0); (0, 1)] ∧ m.1 = Z.of_nat i) ∧
  (∀ i c, ["A"; "B"] !! i = Some c →
     ∃ m, m ∈ [(0, 0); (0, 1)] ∧ m.2 = Z.of_nat i).
Proof. exact (every_index_is_used _ _ _ _ _ build_abaGrid). Defined.

(** X13.  Whatever the four vectors hold when [buildUniqueVectors] is
    called, the shape, color and mesh vectors it returns are those it
    returns for empty vectors, and the nodes are added after the nodes
    that were there. *)
Theorem vectors_are_replaced_nodes_appended (pixelMap : QJsonArray)
    (shapes0 colors0 : list string) (meshes0 : list (Z * Z))
    (nodes0 : list Node) :
  buildUniqueVectors pixelMap shapes0 colors0 meshes0 nodes0 =
  (λ v, (v.1.1.1, v.1.1.2, v.1.2, nodes0 ++ v.2)) <$>
    buildUniqueVectors pixelMap [] [] [] [].
Proof.
  rewrite !buildUniqueVectors_spec.
  by destruct (uniqueVectors _) as [[[shapes colors] meshes] ns].
Qed.

(** ** Where the nodes are *)

Lemma elem_of_cells_inv (pixelMap : QJsonArray) (c : Z * Z * QJsonValue) :
  c ∈ cells pixelMap →
  ∃ (i j : nat) r,
    pixelMap !! i = Some r ∧ toArray r !! j = Some c.2 ∧
    c.1 = (Z.of_nat i, Z.of_nat j).
Proof.
  unfold cells. intros (l & Hc & Hl)%list_elem_of_join.
  apply elem_of_lookup_imap in Hl as (i & r & -> & Hr).
  apply elem_of_lookup_imap in Hc as (j & x & -> & Hx).
  by exists i, j, r.
Qed.

Lemma retainedCell_Some (c : Z * Z * QJsonValue) (cell : Cell) :
  retainedCell c = Some cell →
  (cellRow cell, cellCol cell) = c.1 ∧
  readItem c.2 = Some (cellColor cell, cellShape cell, cellDepth cell).
Proof.
  unfold retainedCell.
  destruct (readItem c.2) as [[[color shape] d]|]; [|done].
  simpl. intros [= <-]. simpl. by destruct c as [[i j] x].
Qed.

Lemma node_item (pixelMap : QJsonArray)
    (shapes colors : list string) (meshes : list (Z * Z)) (ns : list Node)
    (n : Node) :
  buildUniqueVectors pixelMap [] [] [] [] =
    Some (shapes, colors, meshes, ns) →
  n ∈ ns →
  ∃ (i j : nat) r x color shape,
    pixelMap !! i = Some r ∧ toArray r !! j = Some x ∧
    readItem x = Some (color, shape, depth n) ∧
    row n = Z.of_nat i ∧ col n = Z.of_nat j.
Proof.
  intros (_ & _ & _ & ->)%buildUniqueVectors_Some.
  intros (cell & -> & Hcell)%list_elem_of_fmap.
  apply list_elem_of_omap in Hcell as (c & Hc & Hcell).
  apply elem_of_cells_inv in Hc as (i & j & r & Hr & Hx & Hpos).
  apply retainedCell_Some in Hcell as [Hpos' Hread].
  rewrite Hpos in Hpos'. injection Hpos' as Hrow Hcol.
  exists i, j, r, c.2, (cellColor cell), (cellShape cell). simpl.
  split_and!; done.
Qed.

(** X14.  [buildUniqueVectors] makes no node without an item: every node
    it returns has the row and column of an item of the grid that
    [readItem] retains, and the depth read from this item. *)
Theorem node_comes_from_item (pixelMap : QJsonArray)
    (shapes colors : list string) (meshes : list (Z * Z)) (ns : list Node)
    (n : Node) :
  buildUniqueVectors pixelMap [] [] [] [] =
    Some (shapes, colors, meshes, ns) →
  n ∈ ns →
  ∃ (i j : nat) r x color shape,
    pixelMap !! i = Some r ∧ toArray r !! j = Some x ∧
    readItem x = Some (color, shape, depth n) ∧
    row n = Z.of_nat i ∧ col n = Z.of_nat j.
Proof. apply node_item. Qed.

Lemma node_comes_from_item_witness :
  ∃ (i j : nat) r x color shape,
    Examples.abaGrid !! i = Some r ∧ toArray r !! j = Some x ∧
    readItem x = Some (color, shape, 1) ∧
    (0 : Z) = Z.of_nat i ∧ (1 : Z) = Z.of_nat j.
Proof.
  apply (node_comes_from_item Examples.abaGrid _ _ _ _
           {| mesh := 1; depth := 1; row := 0; col := 1 |} build_abaGrid).
  right. left.
Defined.

Section RowMajor.

Lemma row_cells_sorted (i j0 : Z) (row : QJsonArray) :
  StronglySorted (λ c1 c2 : Z * Z * QJsonValue, rowMajor c1.1 c2.1)
    (imap (λ n x, (i, j0 + Z.of_nat n, x)) row).
Proof.
  revert j0. induction row as [|x row IH]; intros j0; simpl.
  - constructor.
  - constructor.
    + rewrite (imap_ext _ (λ n y, (i, (j0 + 1) + Z.of_nat n, y)))
        by (intros; simpl; do 2 f_equal; lia).
      apply IH.
    + apply Forall_forall. intros c (n & y & -> & _)%elem_of_lookup_imap.
      right. simpl. lia.
Qed.

Lemma grid_cells_sorted (i : Z) (pixelMap : QJsonArray) :
  StronglySorted (λ c1 c2 : Z * Z * QJsonValue, rowMajor c1.1 c2.1)
    (mjoin (imap (λ n r, imap (λ j x, (i + Z.of_nat n, Z.of_nat j, x))
                           (toArray r)) pixelMap)).
Proof.
  revert i. induction pixelMap as [|r pixelMap IH]; intros i; simpl.
  - constructor.
  - rewrite (imap_ext _
      (λ n r, imap (λ j x, ((i + 1) + Z.of_nat n, Z.of_nat j, x))
                (toArray r)))
      by (intros; simpl; apply imap_ext; intros; simpl; do 2 f_equal; lia).
    apply StronglySorted_app_2; [| |apply IH].
    + intros c1 c2 (j & x & -> & _)%elem_of_lookup_imap
        (l & Hc2 & Hl)%list_elem_of_join.
      apply elem_of_lookup_imap in Hl as (n & r' & -> & _).
      apply elem_of_lookup_imap in Hc2 as (j' & x' & -> & _).
      left. simpl. lia.
    + rewrite (imap_ext _ (λ j x, (i + Z.of_nat 0, 0 + Z.of_nat j, x)))
        by (intros; simpl; do 2 f_equal; lia).
      apply row_cells_sorted.
Qed.

Lemma retained_sorted (pixelMap : QJsonArray) :
  StronglySorted
    (λ c1 c2, rowMajor (cellRow c1, cellCol c1) (cellRow c2, cellCol c2))
    (retained pixelMap).
Proof.
  unfold retained, cells.
  pose proof (grid_cells_sorted 0 pixelMap) as Hsorted.
  rewrite (imap_ext _
    (λ n r, imap (λ j x, (0 + Z.of_nat n, Z.of_nat j, x)) (toArray r)))
    by (intros; simpl; apply imap_ext; intros; simpl; do 2 f_equal; lia).
  induction Hsorted as [|c l Hl IH Hc].
  - constructor.
  - change (omap retainedCell (c :: l)) with
      (match retainedCell c with
       | Some y => y :: omap retainedCell l
       | None => omap retainedCell l
       end).
    destruct (retainedCell c) as [cell|] eqn:Hcell; [|done].
    constructor; [done|].
    apply Forall_forall. intros cell' (c' & Hc' & Hcell')%list_elem_of_omap.
    apply retainedCell_Some in Hcell as [-> _].
    apply retainedCell_Some in Hcell' as [-> _].
    rewrite Forall_forall in Hc. by apply Hc.
Qed.

Lemma StronglySorted_lookup_lt {A} (R : relation A) (l : list A)
    (i j : nat) (x y : A) :
  StronglySorted R l → (i < j)%nat → l !! i = Some x → l !! j = Some y →
  R x y.
Proof.
  intros Hl. revert i j. induction Hl as [|z l Hl IH Hz]; intros i j Hij.
  - by rewrite lookup_nil.
  - destruct i as [|i], j as [|j]; simpl; try lia.
    + intros [= ->] Hy. rewrite Forall_forall in Hz.
      apply Hz. by eapply list_elem_of_lookup_2.
    + apply IH. lia.
Qed.
End RowMajor.

Lemma nodes_rowMajor (pixelMap : QJsonArray)
    (shapes colors : list string) (meshes : list (Z * Z)) (ns : list Node)
    (t1 t2 : nat) (n1 n2 : Node) :
  buildUniqueVectors pixelMap [] [] [] [] =
    Some (shapes, colors, meshes, ns) →
  (t1 < t2)%nat → ns !! t1 = Some n1 → ns !! t2 = Some n2 →
  rowMajor (row n1, col n1) (row n2, col n2).
Proof.
  intros (_ & _ & _ & ->)%buildUniqueVectors_Some Hlt.
  rewrite !list_lookup_fmap.
  destruct (retained pixelMap !! t1) as [c1|] eqn:Hc1; [|done].
  destruct (retained pixelMap !! t2) as [c2|] eqn:Hc2; [|done].
  intros [= <-] [= <-]. simpl.
  exact (StronglySorted_lookup_lt _ _ _ _ _ _ (retained_sorted pixelMap)
           Hlt Hc1 Hc2).
Qed.

(** X15.  The nodes that [buildUniqueVectors] returns are in row-major
    order of their cells: a node that comes earlier in the vector is in
    an earlier row, or in the same row and an earlier column.  So no two
    nodes are at the same place of the grid. *)
Theorem nodes_in_row_major_order (pixelMap : QJsonArray)
    (shapes colors : list string) (meshes : list (Z * Z)) (ns : list Node)
    (t1 t2 : nat) (n1 n2 : Node) :
  buildUniqueVectors pixelMap [] [] [] [] =
    Some (shapes, colors, meshes, ns) →
  (t1 < t2)%nat → ns !! t1 = Some n1 → ns !! t2 = Some n2 →
  rowMajor (row n1, col n1) (row n2, col n2).
Proof. apply nodes_rowMajor. Qed.

Lemma nodes_in_row_major_order_witness : rowMajor (0, 0) (0, 2).
Proof.
  refine (nodes_in_row_major_order Examples.abaGrid _ _ _ _ 0 2
            {| mesh := 0; depth := 1; row := 0; col := 0 |}
            {| mesh := 0; depth := 1; row := 0; col := 2 |}
            build_abaGrid _ eq_refl eq_refl).
  lia.
Defined.

Lemma translation_of_node (n : Node) :
  0 ≤ row n < 2 ^ 30 → 0 ≤ col n < 2 ^ 30 →
  attribute (nodeDef n) "translation" =
  Array [QJsonValue_int (row n * 2 + 1); QJsonValue_int (col n * 2 + 1);
         QJsonValue_int 0].
Proof.
  intros Hrow Hcol. assert (2 ^ 30 = 1073741824) as H30 by done.
  change (attribute (nodeDef n) "translation") with
    (Array [QJsonValue_int (int (int (row n * 2) + 1));
            QJsonValue_int (int (int (col n * 2) + 1)); QJsonValue_int 0]).
  rewrite (int_small (row n * 2)), (int_small (col n * 2))
    by (unfold INT_MIN, INT_MAX; lia).
  rewrite (int_small (row n * 2 + 1)), (int_small (col n * 2 + 1))
    by (unfold INT_MIN, INT_MAX; lia).
  done.
Qed.

(** X16.  For every grid with at most 2^30 rows of at most 2^30 items
    each, no two nodes of the export are at the same place: two different
    entries of the node vector give node definitions with different
    translations. *)
Theorem nodes_do_not_overlap (pixelMap : QJsonArray)
    (shapes colors : list string) (meshes : list (Z * Z)) (ns : list Node)
    (t1 t2 : nat) (n1 n2 : Node) :
  buildUniqueVectors pixelMap [] [] [] [] =
    Some (shapes, colors, meshes, ns) →
  Z.of_nat (length pixelMap) ≤ 2 ^ 30 →
  (∀ r, r ∈ pixelMap → Z.of_nat (length (toArray r)) ≤ 2 ^ 30) →
  t1 ≠ t2 → ns !! t1 = Some n1 → ns !! t2 = Some n2 →
  attribute (nodeDef n1) "translation" ≠
  attribute (nodeDef n2) "translation".
Proof.
  intros Hbuild Hrows Hcols Hne H1 H2.
  assert (∀ t n, ns !! t = Some n →
            0 ≤ row n < 2 ^ 30 ∧ 0 ≤ col n < 2 ^ 30) as Hbound.
  { intros t n Hn. apply list_elem_of_lookup_2 in Hn.
    destruct (node_item _ _ _ _ _ _ Hbuild Hn)
      as (i & j & r & x & ? & ? & Hr & Hx & _ & -> & ->).
    pose proof (lookup_lt_Some _ _ _ Hr).
    pose proof (lookup_lt_Some _ _ _ Hx).
    pose proof (Hcols r (list_elem_of_lookup_2 _ _ _ Hr)). lia. }
  destruct (Hbound _ _ H1) as [Hr1 Hc1], (Hbound _ _ H2) as [Hr2 Hc2].
  rewrite !translation_of_node by done. unfold QJsonValue_int.
  intros [= Hrow Hcol].
  destruct (decide (t1 < t2)%nat) as [Hlt|Hge].
  - destruct (nodes_rowMajor _ _ _ _ _ _ _ _ _ Hbuild Hlt H1 H2)
      as [?|[? ?]]; simpl in *; lia.
  - assert (t2 < t1)%nat as Hlt by lia.
    destruct (nodes_rowMajor _ _ _ _ _ _ _ _ _ Hbuild Hlt H2 H1)
      as [?|[? ?]]; simpl in *; lia.
Qed.

Lemma nodes_do_not_overlap_witness :
  attribute (nodeDef {| mesh := 0; depth := 1; row := 0; col := 0 |})
    "translation" ≠
  attribute (nodeDef {| mesh := 1; depth := 1; row := 0; col := 1 |})
    "translation".
Proof.
  refine (nodes_do_not_overlap Examples.abaGrid _ _ _ _ 0 1 _ _
            build_abaGrid _ _ _ eq_refl eq_refl).
  - vm_compute. discriminate.
  - intros r ->%list_elem_of_singleton. vm_compute. discriminate.
  - lia.
Defined.

(** X17.  An item that is retained and whose depth attribute is absent or
    is not a number gets the depth 0, and a node of depth 0 has the scale
    (1, 1, -1). *)
Theorem depth_defaults_to_zero (x : QJsonValue) (color shape : string)
    (d : Z) (m i j : Z) :
  readItem x = Some (color, shape, d) →
  (∀ q, attribute x "depth" ≠ Double q) →
  d = 0 ∧
  attribute (nodeDef {| mesh := m; depth := d; row := i; col := j |})
    "scale" =
  Array [QJsonValue_int 1; QJsonValue_int 1; QJsonValue_int (-1)].
Proof.
  intros Hread Hdepth. rewrite readItem_attributes in Hread.
  destruct (noneNull x); [|done]. injection Hread as _ _ <-.
  assert (toInt (attribute x "depth") = 0) as ->.
  { destruct (attribute x "depth"); try done. by edestruct Hdepth. }
  done.
Qed.

Lemma depth_defaults_to_zero_witness :
  (0 : Z) = 0 ∧
  attribute (nodeDef {| mesh := 0; depth := 0; row := 0; col := 0 |})
    "scale" =
  Array [QJsonValue_int 1; QJsonValue_int 1; QJsonValue_int (-1)].
Proof.
  apply (depth_defaults_to_zero (Object ∅) "" "" 0 0 0 0).
  - vm_compute. reflexivity.
  - intros q. vm_compute. discriminate.
Defined.

(** ** How many shapes, colors and meshes *)

Lemma length_le_of_indices {A} (l : list A) (f : A → Z) (n : nat) :
  (∀ i, (i < n)%nat → ∃ x, x ∈ l ∧ f x = Z.of_nat i) →
  (n ≤ length l)%nat.
Proof.
  intros Hall.
  assert (seq 0 n ⊆+ (λ x, Z.to_nat (f x)) <$> l) as Hsub.
  { apply NoDup_submseteq; [apply NoDup_seq|].
    intros i [_ Hi]%elem_of_seq. destruct (Hall i) as (x & Hx & Hfx); [lia|].
    apply list_elem_of_fmap. exists x. split; [lia|done]. }
  apply submseteq_length in Hsub.
  by rewrite length_seq, length_fmap in Hsub.
Qed.

(** X18.  [buildUniqueVectors] returns no more shapes than meshes, no more
    colors than meshes, and no more meshes than nodes. *)
Theorem fewer_keys_than_nodes (pixelMap : QJsonArray)
    (shapes colors : list string) (meshes : list (Z * Z)) (ns : list Node) :
  buildUniqueVectors pixelMap [] [] [] [] =
    Some (shapes, colors, meshes, ns) →
  (length shapes ≤ length meshes)%nat ∧
  (length colors ≤ length meshes)%nat ∧
  (length meshes ≤ length ns)%nat.
Proof.
  intros Hbuild.
  destruct (indices_used _ _ _ _ _ Hbuild) as (Hmeshes & Hshapes & Hcolors).
  split_and!.
  - apply (length_le_of_indices meshes fst). intros i Hi.
    destruct (lookup_lt_is_Some_2 shapes i Hi) as [s Hs]. eauto.
  - apply (length_le_of_indices meshes snd). intros i Hi.
    destruct (lookup_lt_is_Some_2 colors i Hi) as [c Hc]. eauto.
  - apply (length_le_of_indices ns mesh). intros i Hi.
    destruct (lookup_lt_is_Some_2 meshes i Hi) as [m Hm]. eauto.
Qed.

Lemma fewer_keys_than_nodes_witness :
  (length ["cube"] ≤ length [(0, 0); (0, 1)])%nat ∧
  (length ["A"; "B"] ≤ length [(0, 0); (0, 1)])%nat ∧
  (length [(0, 0); (0, 1)] ≤
   length [{| mesh := 0; depth := 1; row := 0; col := 0 |};
           {| mesh := 1; depth := 1; row := 0; col := 1 |};
           {| mesh := 0; depth := 1; row := 0; col := 2 |}])%nat.
Proof. exact (fewer_keys_than_nodes _ _ _ _ _ build_abaGrid). Defined.

(** ** The fields of the input *)

(** X19.  [write] reads four fields of the input and nothing else: two
    inputs with the same version, width, height and pixels are exported
    alike. *)
Theorem only_four_fields_are_read (P : Platform) (localFileName : string)
    (data data' : QJsonObject) :
  (∀ key, key ∈ ["version"; "width"; "height"; "pixels"] →
          data !! key = data' !! key) →
  write P localFileName data = write P localFileName data'.
Proof.
  intros Hsame. rewrite !write_cases. unfold QJsonObject_value.
  rewrite !Hsame by (rewrite !elem_of_cons; tauto). done.
Qed.

Lemma only_four_fields_are_read_witness :
  write (Examples.platform (Bytes "cube")) "out.gltf" Examples.tallInput =
  write (Examples.platform (Bytes "cube")) "out.gltf"
    (<["author" := String "me"]> Examples.tallInput).
Proof.
  apply only_four_fields_are_read.
  intros key. rewrite !elem_of_cons.
  intros [->|[->|[->|[->|[]%elem_of_nil]]]]; reflexivity.
Defined.

(** X20.  A version field that is not a JSON string, such as the number
    1.0, is not accepted: [write] reads it as the empty string and ends
    with the version error, whose message then names no version. *)
Theorem version_must_be_a_string (P : Platform) (localFileName : string)
    (data : QJsonObject) :
  (∀ s, QJsonObject_value data "version" ≠ String s) →
  write P localFileName data =
  Some {| emitted :=
            error localFileName "Invalid version number [1.0 != ]";
          written := None |}.
Proof.
  intros Hv. rewrite write_cases. cbv zeta.
  assert (toString (QJsonObject_value data "version") = "") as ->.
  { destruct (QJsonObject_value data "version"); try done.
    by edestruct Hv. }
  done.
Qed.

Lemma version_must_be_a_string_witness :
  write (Examples.platform (Bytes "cube")) "out.gltf"
    (<["version" := QJsonValue_int 1]> Examples.tallInput) =
  Some {| emitted := error "out.gltf" "Invalid version number [1.0 != ]";
          written := None |}.
Proof.
  apply version_must_be_a_string. intros s. vm_compute. discriminate.
Defined.

(** X21.  The size check compares the width and height fields as [int]:
    when both are absent or are not numbers, both read as 0, the check is
    passed, and [write] ends as it does for the same input with width 0
    and height 0. *)
Theorem size_fields_default_to_zero (P : Platform) (localFileName : string)
    (data : QJsonObject) :
  (∀ q, QJsonObject_value data "width" ≠ Double q) →
  (∀ q, QJsonObject_value data "height" ≠ Double q) →
  write P localFileName data =
  write P localFileName
    (<["width" := QJsonValue_int 0]> (<["height" := QJsonValue_int 0]> data)).
Proof.
  intros Hwidth Hheight. rewrite !write_cases. unfold QJsonObject_value.
  rewrite !(lookup_insert_ne _ _ "version") by done.
  rewrite !(lookup_insert_ne _ _ "pixels") by done.
  rewrite lookup_insert_eq, lookup_insert_ne, lookup_insert_eq by done.
  fold (QJsonObject_value data "width") (QJsonObject_value data "height").
  assert (∀ v, (∀ q, v ≠ Double q) → toInt v = 0) as Hzero.
  { intros v Hv. destruct v; try done. by edestruct Hv. }
  rewrite (Hzero _ Hwidth), (Hzero _ Hheight). done.
Qed.

Lemma size_fields_default_to_zero_witness :
  write (Examples.platform (Bytes "cube")) "out.gltf"
    (<["version" := String "1.0"]>
     {[ "pixels" := Array Examples.abaGrid ]}) =
  write (Examples.platform (Bytes "cube")) "out.gltf"
    (<["width" := QJsonValue_int 0]>
     (<["height" := QJsonValue_int 0]>
      (<["version" := String "1.0"]>
       {[ "pixels" := Array Examples.abaGrid ]}))).
Proof.
  apply size_fields_default_to_zero; intros q; vm_compute; discriminate.
Defined.
